(** * Patient PDF portal: the upload, list, download and delete handlers of
    [server/server.js], embedded shallowly and checked against the design
    specification.

    JavaScript strings are sequences of UTF-16 code units; file contents are
    sequences of bytes; the blob store is a finite map from paths to files and
    the record store a table of rows with an AUTOINCREMENT counter.  Handlers
    run in a small state-and-exception monad over that world, so that a
    [try { ... } catch] of the source is a [try_catch] of the model. *)

From Stdlib Require Import NArith ZArith List Ascii String Bool Lia.
From Stdlib Require Import Sorting.Sorted Sorting.Permutation.
From stdpp Require Import base option list gmap.
Import ListNotations.

Local Open Scope N_scope.

(** ** JavaScript strings *)

Module Js.

(** A string is its list of UTF-16 code units. *)
Abbreviation jsstring := (list N).

(** An ASCII literal of the source as a JavaScript string. *)
Definition lit (s : string) : jsstring :=
  List.map N_of_ascii (list_ascii_of_string s).

(** [!s] for a string: the empty string is the only falsy one. *)
Definition falsy (s : jsstring) : bool :=
  match s with [] => true | _ :: _ => false end.

(** [a || b] where [a] is a string, [null] or [undefined]. *)
Definition or_else (a : option jsstring) (b : jsstring) : jsstring :=
  match a with
  | Some s => if falsy s then b else s
  | None => b
  end.

(** The class [[\x00-\x1F\x7F]] of the control-character regex. *)
Definition is_control (c : N) : bool := (c <=? 31) || (c =? 127).

(** The class [\s] of a JavaScript regex, which is also what [trim] strips:
    WhiteSpace and LineTerminator code units. *)
Definition is_space (c : N) : bool :=
  ((9 <=? c) && (c <=? 13)) || (c =? 32) || (c =? 160) || (c =? 5760)
  || ((8192 <=? c) && (c <=? 8202)) || (c =? 8232) || (c =? 8233)
  || (c =? 8239) || (c =? 8287) || (c =? 12288) || (c =? 65279).

(** What [.] of a regex (without the [s] flag) refuses. *)
Definition is_line_terminator (c : N) : bool :=
  (c =? 10) || (c =? 13) || (c =? 8232) || (c =? 8233).

Definition is_dot (c : N) : bool := c =? 46.

(** The class [[.\s]]. *)
Definition is_dot_or_space (c : N) : bool := is_dot c || is_space c.

(** ASCII case folding of a letter, as [/i] does for an ASCII pattern letter. *)
Definition eq_ci (c letter : N) : bool := (c =? letter) || (c =? letter - 32).

Fixpoint drop_while (p : N -> bool) (s : jsstring) : jsstring :=
  match s with
  | [] => []
  | c :: r => if p c then drop_while p r else s
  end.

(** [s.replace(/[class]/g, '')]. *)
Definition remove_all (p : N -> bool) (s : jsstring) : jsstring :=
  List.filter (fun c => negb (p c)) s.

(** [s.replace(/^[class]+/, '')]. *)
Definition strip_leading (p : N -> bool) (s : jsstring) : jsstring :=
  drop_while p s.

(** [s.replace(/[class]+$/, '')]. *)
Definition strip_trailing (p : N -> bool) (s : jsstring) : jsstring :=
  rev (drop_while p (rev s)).

(** [s.trim()]. *)
Definition trim (s : jsstring) : jsstring :=
  strip_trailing is_space (strip_leading is_space s).

(** [s.replace(/\s+/g, ' ')]: every maximal run of whitespace becomes one
    space; [in_run] says that the previous code unit was whitespace. *)
Fixpoint collapse_from (in_run : bool) (s : jsstring) : jsstring :=
  match s with
  | [] => []
  | c :: r =>
      if is_space c
      then (if in_run then collapse_from true r else 32 :: collapse_from true r)
      else c :: collapse_from false r
  end.

Definition collapse_spaces (s : jsstring) : jsstring := collapse_from false s.

(** [s.slice(0, n)]. *)
Definition slice0 (n : nat) (s : jsstring) : jsstring := firstn n s.

(** [/\.pdf$/i.test(s)]. *)
Definition ends_with_pdf (s : jsstring) : bool :=
  match rev s with
  | f :: d :: p :: dot :: _ =>
      is_dot dot && eq_ci p 112 && eq_ci d 100 && eq_ci f 102
  | _ => false
  end.

Fixpoint is_prefix (p s : jsstring) : bool :=
  match p, s with
  | [], _ => true
  | _ :: _, [] => false
  | a :: p', b :: s' => (a =? b) && is_prefix p' s'
  end.

(** [s.includes(needle)]. *)
Fixpoint includes (needle s : jsstring) : bool :=
  is_prefix needle s ||
  match s with
  | [] => false
  | _ :: r => includes needle r
  end.

Definition eqb (a b : jsstring) : bool :=
  bool_decide (a = b).

End Js.

Import Js.

(** ** The [sanitize-filename] package

    [server.js] delegates to [require('sanitize-filename')], an npm dependency
    whose code is not part of the repository.  It is rendered here from the
    package's published source (version 1.6): five regex replacements with the
    empty replacement, then truncation to 255 bytes of UTF-8. *)

Module Sanitize.

(** [illegalRe]: slash, question mark, angle brackets, backslash, colon,
    star, bar and the double quote. *)
Definition is_illegal (c : N) : bool :=
  (c =? 47) || (c =? 63) || (c =? 60) || (c =? 62) || (c =? 92)
  || (c =? 58) || (c =? 42) || (c =? 124) || (c =? 34).

(** [controlRe = /[\x00-\x1f\x80-\x9f]/g]. *)
Definition is_control_c0_c1 (c : N) : bool :=
  (c <=? 31) || ((128 <=? c) && (c <=? 159)).

(** [reservedRe = /^\.+$/]: the whole name is dots. *)
Definition is_reserved (s : jsstring) : bool :=
  negb (falsy s) && forallb is_dot s.

Fixpoint eq_ci_word (w s : jsstring) : bool :=
  match w, s with
  | [], [] => true
  | a :: w', b :: s' => eq_ci b a && eq_ci_word w' s'
  | _, _ => false
  end.

Definition is_digit (c : N) : bool := (48 <=? c) && (c <=? 57).

(** The device names [con|prn|aux|nul|com[0-9]|lpt[0-9]], case-insensitively. *)
Definition is_device (s : jsstring) : bool :=
  match s with
  | [a; b; c] =>
      eq_ci_word (lit "con") s || eq_ci_word (lit "prn") s
      || eq_ci_word (lit "aux") s || eq_ci_word (lit "nul") s
  | [a; b; c; d] =>
      (eq_ci_word (lit "com") [a; b; c] || eq_ci_word (lit "lpt") [a; b; c])
      && is_digit d
  | _ => false
  end.

(** [windowsReservedRe]: case-insensitively, a device name alone, or one
    followed by a dot and anything that stays on one line. *)
Definition is_windows_reserved (s : jsstring) : bool :=
  is_device s
  || existsb
       (fun n =>
          is_device (firstn n s)
          && match skipn n s with
             | dot :: rest =>
                 is_dot dot && forallb (fun c => negb (is_line_terminator c)) rest
             | [] => false
             end)
       [3%nat; 4%nat].

(** [windowsTrailingRe = /[\. ]+$/]. *)
Definition is_dot_or_blank (c : N) : bool := is_dot c || (c =? 32).

Definition is_high_surrogate (c : N) : bool := (55296 <=? c) && (c <=? 56319).
Definition is_low_surrogate (c : N) : bool := (56320 <=? c) && (c <=? 57343).

(** [Buffer.byteLength] of one code unit that is not half of a pair. *)
Definition utf8_length (c : N) : N :=
  if c <? 128 then 1 else if c <? 2048 then 2 else 3.

(** [truncate-utf8-bytes]: the longest prefix of whole characters that fits in
    [budget] bytes; a surrogate pair is one character of four bytes. *)
Fixpoint truncate (budget : N) (s : jsstring) : jsstring :=
  match s with
  | [] => []
  | h :: t =>
      match t with
      | l :: r =>
          if is_high_surrogate h && is_low_surrogate l
          then (if 4 <=? budget
                then h :: l :: truncate (budget - 4) r
                else [])
          else (if utf8_length h <=? budget
                then h :: truncate (budget - utf8_length h) t
                else [])
      | [] =>
          if utf8_length h <=? budget then [h] else []
      end
  end.

Definition sanitize (input : jsstring) : jsstring :=
  let s1 := remove_all is_illegal input in
  let s2 := remove_all is_control_c0_c1 s1 in
  let s3 := if is_reserved s2 then [] else s2 in
  let s4 := if is_windows_reserved s3 then [] else s3 in
  let s5 := strip_trailing is_dot_or_blank s4 in
  truncate 255 s5.

End Sanitize.

Import Sanitize.

(** ** The host: what Node supplies and the repository does not define *)

(** [normalize] is [String.prototype.normalize('NFC')], of which the model
    keeps one law: a string of ASCII code units is already in NFC.  [dirname]
    is [__dirname]. *)
Class Runtime := {
  normalize : jsstring -> jsstring;
  normalize_ascii :
    forall s, forallb (fun c => c <? 128) s = true -> normalize s = s;
  dirname : jsstring
}.

(** ** Numbers as text *)

Module Num.

(** The digit characters 0-9 and a-f. *)
Definition digit_char (d : N) : N := if d <? 10 then 48 + d else 87 + d.

(** Least significant digit first; [fuel] bounds the number of digits. *)
Fixpoint digits_rev (fuel : nat) (radix n : N) : jsstring :=
  match fuel with
  | O => []
  | S f =>
      if n <? radix then [digit_char n]
      else digit_char (n mod radix) :: digits_rev f radix (n / radix)
  end.

(** [n.toString(radix)] for a non-negative integer: one unit of fuel per bit
    of [n] is enough for any radix from 2 up. *)
Definition toString (radix n : N) : jsstring :=
  rev (digits_rev (S (N.to_nat (N.log2 n))) radix n).

Definition is_decimal_digit (c : N) : bool := (48 <=? c) && (c <=? 57).

Definition is_hex_digit (c : N) : bool :=
  is_decimal_digit c || ((97 <=? c) && (c <=? 102)).

(** The value of a digit character 0-9 or a-z. *)
Definition digit_value (c : N) : N := if c <? 58 then c - 48 else c - 87.

(** [parseInt(s, radix)] on a string of digits of that radix. *)
Definition parseInt (radix : N) (s : jsstring) : N :=
  List.fold_left (fun acc c => acc * radix + digit_value c) s 0.

End Num.

(** ** [storage.filename]: the sanitizer and the unique name *)

Definition MAX_NAME_LEN : nat := 200.


(** [path.join(a, b)] for a [b] without separators. *)
Definition path_join (a b : jsstring) : jsstring := a ++ lit "/" ++ b.

Section Filename.
Context `{Runtime}.

Definition uploadsDir : jsstring := path_join dirname (lit "uploads").

(** Lines 82-86: the fallback for a missing name, NFC, control characters
    removed, trimmed. *)
Definition original_of (originalname : option jsstring) : jsstring :=
  let original := or_else originalname (lit "file") in
  let original := normalize original in
  trim (remove_all is_control original).

(** Lines 89-98: the name that goes to disk after the unique prefix. *)
Definition safeOriginal_of (original : jsstring) : jsstring :=
  let safeOriginal :=
    slice0 MAX_NAME_LEN (trim (collapse_spaces (sanitize original))) in
  let safeOriginal :=
    if falsy safeOriginal then lit "file.pdf" else safeOriginal in
  let safeOriginal :=
    if ends_with_pdf safeOriginal then safeOriginal
    else safeOriginal ++ lit ".pdf" in
  strip_leading is_dot_or_space safeOriginal.

(** The Filename Sanitizer of the specification, from the client's name. *)
Definition sanitizer (originalname : option jsstring) : jsstring :=
  safeOriginal_of (original_of originalname).

(** Line 101; [now] is [Date.now()] and [rnd] the value of
    [Math.floor(Math.random() * 1e9)]. *)
Definition uniquePrefix (now rnd : N) : jsstring :=
  Num.toString 10 now ++ lit "-" ++ Num.toString 16 rnd.

(** Line 102. *)
Definition storedName (now rnd : N) (safeOriginal : jsstring) : jsstring :=
  uniquePrefix now rnd ++ lit "-" ++ safeOriginal.

(** What the callback hands on: the name given to [cb] and the name it leaves
    in [req.savedOriginalFilename]. *)
Record named := {
  cb_filename : jsstring;
  savedOriginalFilename : jsstring
}.

Definition storage_filename (originalname : option jsstring) (now rnd : N)
  : named :=
  let original := original_of originalname in
  {| cb_filename := storedName now rnd (safeOriginal_of original);
     savedOriginalFilename := original |}.

End Filename.

(** The pattern the specification promises for sanitizer output: a first
    character that is neither a dot nor whitespace, anything on one line, and
    the suffix [.pdf] in either case. *)
Definition matches_safe_pattern (s : jsstring) : bool :=
  match s with
  | [] => false
  | c :: r =>
      negb (is_dot_or_space c)
      && ends_with_pdf r
      && forallb (fun x => negb (is_line_terminator x))
           (firstn (length r - 4) r)
  end.

Definition no_control (s : jsstring) : bool :=
  forallb (fun c => negb (is_control c)) s.

(** ** The world the handlers run in *)

(** A blob.  [readable] and [removable] stand for what the operating system
    answers to [openSync] and [unlinkSync] on it: the handlers wrap both in
    [try]/[catch], so both can fail. *)
Record file := {
  content : list N;
  readable : bool;
  removable : bool
}.

(** A line of the [documents] table; [original_filename] is [None] for NULL
    and for a table that has no such column. *)
Record row := {
  id : N;
  filename : jsstring;
  original_filename : option jsstring;
  filepath : jsstring;
  filesize : N;
  created_at : N
}.

(** What a handler asks of the two stores and of the console, in order. *)
Inductive event :=
| FsOpen (p : jsstring)
| FsUnlink (p : jsstring)
| FsExists (p : jsstring)
| FsWrite (p : jsstring)
| SqlInsertFull (name : jsstring)
| SqlInsertReduced (name : jsstring)
| SqlSelectAll
| SqlSelectById (i : N)
| SqlDeleteById (i : N)
| ConsoleError (what : jsstring).

Record world := {
  files : gmap (list N) file;
  documents : list row;
  sequence : N;
  trace : list event
}.

(** What [fs] throws. *)
Inductive exn := ENOENT | EACCES | EPERM.

Inductive result (A : Type) :=
| Return (a : A)
| Throw (e : exn).
Arguments Return {A} a.
Arguments Throw {A} e.

(** A computation changes the world and returns or throws; what it changed
    before throwing stays changed. *)
Definition M (A : Type) : Type := world -> result A * world.

Definition ret {A} (a : A) : M A := fun w => (Return a, w).

Definition bind {A B} (m : M A) (k : A -> M B) : M B :=
  fun w =>
    match m w with
    | (Return a, w') => k a w'
    | (Throw e, w') => (Throw e, w')
    end.

Definition throw {A} (e : exn) : M A := fun w => (Throw e, w).

(** [try { body } catch (e) { handler }]. *)
Definition try_catch {A} (body : M A) (handler : exn -> M A) : M A :=
  fun w =>
    match body w with
    | (Return a, w') => (Return a, w')
    | (Throw e, w') => handler e w'
    end.

Declare Scope js_scope.
Delimit Scope js_scope with js.
Notation "x <- m ;; k" := (bind m (fun x => k))
  (at level 100, m at next level, right associativity) : js_scope.
Notation "m ;;; k" := (bind m (fun _ => k))
  (at level 100, right associativity) : js_scope.
Local Open Scope js_scope.

Definition emit (e : event) : M unit :=
  fun w =>
    (Return tt,
     {| files := files w; documents := documents w;
        sequence := sequence w; trace := trace w ++ [e] |}).

Definition set_files (f : gmap (list N) file) : M unit :=
  fun w =>
    (Return tt,
     {| files := f; documents := documents w;
        sequence := sequence w; trace := trace w |}).

Definition set_table (rows : list row) (next : N) : M unit :=
  fun w =>
    (Return tt,
     {| files := files w; documents := rows;
        sequence := next; trace := trace w |}).

Definition get_world : M world := fun w => (Return w, w).

Definition console_error (what : string) : M unit :=
  emit (ConsoleError (lit what)).

(** *** The blob store: [fs] *)

Module Fs.

(** [fs.existsSync(p)]: never throws. *)
Definition existsSync (p : jsstring) : M bool :=
  emit (FsExists p) ;;;
  w <- get_world ;;
  ret (bool_decide (is_Some (files w !! p))).

(** [fs.unlinkSync(p)]. *)
Definition unlinkSync (p : jsstring) : M unit :=
  emit (FsUnlink p) ;;;
  w <- get_world ;;
  match files w !! p with
  | None => throw ENOENT
  | Some f =>
      if removable f then set_files (delete p (files w)) else throw EPERM
  end.

(** Lines 65-68: [openSync], a zero-filled [Buffer.alloc(4)], [readSync] of
    at most four bytes into it, [closeSync]. *)
Definition read_head (p : jsstring) : M (list N) :=
  emit (FsOpen p) ;;;
  w <- get_world ;;
  match files w !! p with
  | None => throw ENOENT
  | Some f =>
      if readable f then ret (firstn 4 (content f ++ [0; 0; 0; 0]))
      else throw EACCES
  end.

(** [buf.toString() === s] for an ASCII literal [s]: the UTF-8 decoding of
    the buffer is [s] exactly when its bytes are the codes of [s]. *)
Definition buffer_reads (buf : list N) (s : jsstring) : bool :=
  bool_decide (buf = s).

End Fs.

(** Lines 63-74. *)
Definition isRealPDF (filePath : jsstring) : M bool :=
  try_catch
    (buf <- Fs.read_head filePath ;;
     ret (Fs.buffer_reads buf (lit "%PDF")))
    (fun err =>
       console_error "PDF magic-byte check failed:" ;;;
       ret false).

(** *** The record store: [db]

    A statement either fails with the message the engine put in
    [err.message], which the environment chooses, or takes effect on the
    table.  The callback receives the error or the result. *)

Module Db.

Definition next_id (w : world) : N := sequence w + 1.

(** The INSERT of line 151; [clock] is CURRENT_TIMESTAMP. *)
Definition insert_full (err : option jsstring)
    (name original path : jsstring) (size clock : N) : M (jsstring + N) :=
  emit (SqlInsertFull name) ;;;
  match err with
  | Some msg => ret (inl msg)
  | None =>
      w <- get_world ;;
      let i := next_id w in
      set_table
        (documents w ++
           [{| id := i; filename := name; original_filename := Some original;
               filepath := path; filesize := size; created_at := clock |}])
        i ;;;
      ret (inr i)
  end.

(** The INSERT of line 158, without [original_filename]. *)
Definition insert_reduced (err : option jsstring)
    (name path : jsstring) (size clock : N) : M (jsstring + N) :=
  emit (SqlInsertReduced name) ;;;
  match err with
  | Some msg => ret (inl msg)
  | None =>
      w <- get_world ;;
      let i := next_id w in
      set_table
        (documents w ++
           [{| id := i; filename := name; original_filename := None;
               filepath := path; filesize := size; created_at := clock |}])
        i ;;;
      ret (inr i)
  end.

Definition lookup (i : N) (rows : list row) : option row :=
  List.find (fun r => id r =? i) rows.

(** [SELECT * FROM documents WHERE id = ?]. *)
Definition get (err : option jsstring) (i : N) : M (jsstring + option row) :=
  emit (SqlSelectById i) ;;;
  match err with
  | Some msg => ret (inl msg)
  | None => w <- get_world ;; ret (inr (lookup i (documents w)))
  end.

(** [DELETE FROM documents WHERE id = ?]. *)
Definition delete (err : option jsstring) (i : N) : M (option jsstring) :=
  emit (SqlDeleteById i) ;;;
  match err with
  | Some msg => ret (Some msg)
  | None =>
      w <- get_world ;;
      set_table (List.filter (fun r => negb (id r =? i)) (documents w))
        (sequence w) ;;;
      ret None
  end.

(** ORDER BY created_at DESC names one sort key.  Where two rows have the
    same [created_at] the engine is free; [tie a b] says whether it puts [a]
    before [b] then. *)
Definition before (tie : row -> row -> bool) (a b : row) : bool :=
  (created_at b <? created_at a)
  || ((created_at a =? created_at b) && tie a b).

Fixpoint place (tie : row -> row -> bool) (r : row) (sorted : list row)
  : list row :=
  match sorted with
  | [] => [r]
  | h :: t => if before tie r h then r :: h :: t else h :: place tie r t
  end.

Definition order_by_created_at_desc (tie : row -> row -> bool)
    (rows : list row) : list row :=
  List.fold_right (place tie) [] rows.

(** [SELECT * FROM documents ORDER BY created_at DESC]. *)
Definition all (err : option jsstring) (tie : row -> row -> bool)
  : M (jsstring + list row) :=
  emit SqlSelectAll ;;;
  match err with
  | Some msg => ret (inl msg)
  | None =>
      w <- get_world ;;
      ret (inr (order_by_created_at_desc tie (documents w)))
  end.

End Db.

(** ** Requests and responses *)

(** The file part of a multipart request, as multer presents it. *)
Record part := {
  originalname : option jsstring;
  mimetype : jsstring;
  bytes : list N
}.

(** [req.file] once multer has stored the part. *)
Record req_file := {
  rf_filename : jsstring;
  rf_path : jsstring;
  rf_size : N
}.

Inductive body :=
| JsonError (error : jsstring)
| JsonUploaded (doc : N) (name : jsstring) (original : option jsstring)
    (size : N) (message : jsstring)
| JsonRows (rows : list row)
| JsonMessage (message : jsstring)
| Download (filePath downloadName : jsstring).

Record response := {
  status : N;
  payload : body
}.

Definition json_error (code : N) (msg : jsstring) : response :=
  {| status := code; payload := JsonError msg |}.

(** An error handed to [next(err)]: a [multer.MulterError] with its code, or
    any other [Error]. *)
Inductive mw_error :=
| MulterError (code message : jsstring)
| PlainError (message : jsstring).

(** What the environment decides during one upload: the clock, the random
    draw, and what the engine answers to the insert and to its retry. *)
Record upload_env := {
  now : N;
  rnd : N;
  clock : N;
  insert_err : option jsstring;
  retry_err : option jsstring
}.

(** ** The handlers of [server.js] *)

Section Server.
Context `{Runtime}.

(** Lines 113-120: [None] for [cb(null, true)]. *)
Definition fileFilter (p : part) : option mw_error :=
  if Js.eqb (mimetype p) (lit "application/pdf") then None
  else Some (PlainError (lit "Only PDF files are allowed (mimetype check)")).

(** Line 122. *)
Definition fileSize : N := 10 * 1024 * 1024.

Definition write_file (p : jsstring) (data : list N) : M unit :=
  emit (FsWrite p) ;;;
  w <- get_world ;;
  set_files
    (<[p := {| content := data; readable := true; removable := true |}]>
       (files w)).

(** [req.file] as the disk storage fills it from what the two callbacks of
    lines 78-108 answer: [destination] gives [uploadsDir], [filename] the
    stored name. *)
Definition stored_file (n : named) (size : N) : req_file :=
  {| rf_filename := cb_filename n;
     rf_path := path_join uploadsDir (cb_filename n);
     rf_size := size |}.

(** Modelled from the spec: the middleware [upload.single('document')] is
    multer's, not the repository's; the repository supplies [fileFilter],
    [storage.filename] and [limits.fileSize].  Following sections 4.4.1 to
    4.4.3: no file part leaves [req.file] undefined; a part the filter
    refuses is rejected before any byte is written; otherwise the bytes go to
    [uploadsDir] under the name the callback chose, and a stream longer than
    the limit is aborted, the partial blob removed, and the error
    LIMIT_FILE_SIZE raised. *)
Definition upload_single (p : option part) (env : upload_env)
  : M (mw_error + (option req_file * option jsstring)) :=
  match p with
  | None => ret (inr (None, None))
  | Some f =>
      match fileFilter f with
      | Some e => ret (inl e)
      | None =>
          let n := storage_filename (originalname f) (now env) (rnd env) in
          let file := stored_file n (N.of_nat (length (bytes f))) in
          let dest := rf_path file in
          if fileSize <? rf_size file
          then
            write_file dest (firstn (N.to_nat fileSize) (bytes f)) ;;;
            try_catch (Fs.unlinkSync dest) (fun _ => ret tt) ;;;
            ret (inl (MulterError (lit "LIMIT_FILE_SIZE")
                        (lit "File too large")))
          else
            write_file dest (bytes f) ;;;
            ret (inr (Some file, Some (savedOriginalFilename n)))
      end
  end.

(** Line 156. *)
Definition is_missing_column (message : jsstring) : bool :=
  negb (falsy message)
  && includes (lit "no such column: original_filename") message.

Definition database_error (message : jsstring) : response :=
  json_error 500 (lit "Database error: " ++ message).

(** Lines 129-196. *)
Definition upload_handler (file : option req_file)
    (saved : option jsstring) (env : upload_env) : M response :=
  match file with
  | None => ret (json_error 400 (lit "No file uploaded"))
  | Some f =>
      let originalFilename := or_else saved (rf_filename f) in
      real <- isRealPDF (rf_path f) ;;
      if negb real then
        try_catch (Fs.unlinkSync (rf_path f))
          (fun e => console_error "Failed to remove non-PDF file:") ;;;
        ret (json_error 400 (lit "Uploaded file is not a valid PDF"))
      else
        r <- Db.insert_full (insert_err env) (rf_filename f) originalFilename
               (rf_path f) (rf_size f) (clock env) ;;
        match r with
        | inl message =>
            if is_missing_column message then
              r2 <- Db.insert_reduced (retry_err env) (rf_filename f)
                      (rf_path f) (rf_size f) (clock env) ;;
              match r2 with
              | inl message2 =>
                  try_catch (Fs.unlinkSync (rf_path f)) (fun e => ret tt) ;;;
                  ret (database_error message2)
              | inr lastID =>
                  ret {| status := 201;
                         payload :=
                           JsonUploaded lastID (rf_filename f) None (rf_size f)
                             (lit "File uploaded successfully (original_filename column not present)") |}
              end
            else
              try_catch (Fs.unlinkSync (rf_path f)) (fun e => ret tt) ;;;
              ret (database_error message)
        | inr lastID =>
            ret {| status := 201;
                   payload :=
                     JsonUploaded lastID (rf_filename f)
                       (Some originalFilename) (rf_size f)
                       (lit "File uploaded successfully") |}
        end
  end.

(** Lines 199-206; [tie] is the engine's order among equal timestamps. *)
Definition list_handler (err : option jsstring) (tie : row -> row -> bool)
  : M response :=
  r <- Db.all err tie ;;
  match r with
  | inl message => ret (database_error message)
  | inr rows => ret {| status := 200; payload := JsonRows rows |}
  end.

(** Line 228. *)
Definition downloadName (r : row) : jsstring :=
  or_else (original_filename r) (filename r).

(** Lines 209-230, up to the call of [res.download]; [i] is the row the
    [:id] parameter denotes. *)
Definition download_handler (i : N) (err : option jsstring) : M response :=
  r <- Db.get err i ;;
  match r with
  | inl message => ret (database_error message)
  | inr None => ret (json_error 404 (lit "Document not found"))
  | inr (Some doc) =>
      let filePath := filepath doc in
      there <- Fs.existsSync filePath ;;
      if negb there then ret (json_error 404 (lit "File not found on server"))
      else ret {| status := 200;
                  payload := Download filePath (downloadName doc) |}
  end.

(** Lines 230-237: the callback of [res.download]; it answers only when the
    transfer failed before any header went out. *)
Definition download_callback (err : option exn) (headersSent : bool)
  : M (option response) :=
  match err with
  | None => ret None
  | Some _ =>
      console_error "Error downloading file:" ;;;
      if negb headersSent
      then ret (Some (json_error 500 (lit "Error downloading file")))
      else ret None
  end.

(** Lines 242-273; [lookup_err] and [delete_err] are what the engine answers
    to the SELECT and to the DELETE. *)
Definition delete_handler (i : N) (lookup_err delete_err : option jsstring)
  : M response :=
  r <- Db.get lookup_err i ;;
  match r with
  | inl message => ret (database_error message)
  | inr None => ret (json_error 404 (lit "Document not found"))
  | inr (Some doc) =>
      let filePath := filepath doc in
      there <- Fs.existsSync filePath ;;
      (if there then
         try_catch (Fs.unlinkSync filePath)
           (fun err => console_error "Error deleting file:")
       else ret tt) ;;;
      gone <- Db.delete delete_err i ;;
      match gone with
      | Some message => ret (database_error message)
      | None =>
          ret {| status := 200;
                 payload := JsonMessage (lit "Document deleted successfully") |}
      end
  end.

(** Lines 276-287. *)
Definition error_middleware (err : mw_error) : M response :=
  console_error "err.stack" ;;;
  match err with
  | MulterError code message =>
      if Js.eqb code (lit "LIMIT_FILE_SIZE")
      then ret (json_error 400 (lit "File size exceeds 10MB limit"))
      else ret (json_error 400 message)
  | PlainError message =>
      ret (json_error 500 (or_else (Some message) (lit "Internal server error")))
  end.

(** POST /api/documents/upload: the middleware, then the handler, or the
    error middleware when the middleware called [next(err)]. *)
Definition post_upload (p : option part) (env : upload_env) : M response :=
  r <- upload_single p env ;;
  match r with
  | inl e => error_middleware e
  | inr (file, saved) => upload_handler file saved env
  end.

End Server.

(** The world of a fresh installation: no blob, an empty table. *)
Definition empty_world : world :=
  {| files := ∅; documents := []; sequence := 0; trace := [] |}.

Definition blob_exists (w : world) (p : jsstring) : bool :=
  bool_decide (is_Some (files w !! p)).

Definition count_event (p : event -> bool) (w : world) : nat :=
  length (List.filter p (trace w)).

Definition is_insert (e : event) : bool :=
  match e with SqlInsertFull _ | SqlInsertReduced _ => true | _ => false end.

Definition is_insert_full (e : event) : bool :=
  match e with SqlInsertFull _ => true | _ => false end.

Definition is_insert_reduced (e : event) : bool :=
  match e with SqlInsertReduced _ => true | _ => false end.

Definition is_unlink_of (p : jsstring) (e : event) : bool :=
  match e with FsUnlink q => Js.eqb p q | _ => false end.

Definition is_open (e : event) : bool :=
  match e with FsOpen _ => true | _ => false end.

Definition is_delete (e : event) : bool :=
  match e with SqlDeleteById _ => true | _ => false end.

(** The host used to run the model on ASCII names. *)
Definition ascii_runtime : Runtime.
Proof.
  refine {| normalize := fun s => s; dirname := lit "/srv/server" |}.
  reflexivity.
Defined.

#[export] Existing Instance ascii_runtime.

(** ** Vocabulary of the statements *)

(** The word [pdf] in any mix of cases: what is left of a name when the
    leading-dot strip eats the dot of the extension. *)
Definition is_pdf_word (s : jsstring) : bool :=
  match s with
  | [p; d; f] => eq_ci p 112 && eq_ci d 100 && eq_ci f 102
  | _ => false
  end.

(** None of the characters [sanitize-filename] removes as illegal. *)
Definition no_illegal (s : jsstring) : bool :=
  forallb (fun c => negb (is_illegal c)) s.

(** Every whitespace code unit is a plain space. *)
Definition plain_spaces (s : jsstring) : bool :=
  forallb (fun c => negb (is_space c) || (c =? 32)) s.

(** No two whitespace code units in a row. *)
Fixpoint no_double_space (s : jsstring) : bool :=
  match s with
  | a :: t =>
      match t with
      | b :: _ => negb (is_space a && is_space b) && no_double_space t
      | [] => true
      end
  | [] => true
  end.

(** The text does not begin with whitespace. *)
Definition head_not_space (s : jsstring) : bool :=
  match s with c :: _ => negb (is_space c) | [] => true end.

(** Letters, digits, the hyphen and the underscore. *)
Definition is_word_char (c : N) : bool :=
  ((48 <=? c) && (c <=? 57)) || ((65 <=? c) && (c <=? 90))
  || ((97 <=? c) && (c <=? 122)) || (c =? 95) || (c =? 45).

(** No whitespace at either end. *)
Definition no_edge_space (s : jsstring) : bool :=
  match s with c :: _ => negb (is_space c) | [] => true end
  && match rev s with c :: _ => negb (is_space c) | [] => true end.

(** The blob begins with the four bytes of the PDF header. *)
Definition has_pdf_header (f : file) : bool :=
  is_prefix (lit "%PDF") (content f).

(** The blob at [p] is there, can be opened, and begins with the header. *)
Definition verifiable (w : world) (p : jsstring) : bool :=
  match files w !! p with
  | Some f => readable f && has_pdf_header f
  | None => false
  end.

(** [fs.openSync(p, 'r')] would succeed: the blob is there and can be read. *)
Definition openable (w : world) (p : jsstring) : bool :=
  match files w !! p with
  | Some f => readable f
  | None => false
  end.

(** [fs.unlinkSync(p)] would succeed: the blob is there and can be removed. *)
Definition unlinkable (w : world) (p : jsstring) : bool :=
  match files w !! p with
  | Some f => removable f
  | None => false
  end.

(** What AUTOINCREMENT maintains: no row has an id above the counter, and no
    two rows share an id. *)
Definition ids_fresh (w : world) : Prop :=
  Forall (fun r => id r <= sequence w) (documents w)
  /\ List.NoDup (List.map id (documents w)).

(** The rows are in descending order of [created_at]. *)
Definition newest_first (rows : list row) : Prop :=
  StronglySorted (fun a b => created_at b <= created_at a) rows.

(** Neighbours with the same [created_at] are in descending order of [id]. *)
Fixpoint ties_by_id_desc (rows : list row) : bool :=
  match rows with
  | a :: t =>
      match t with
      | b :: _ =>
          (if created_at a =? created_at b then id b <? id a else true)
          && ties_by_id_desc t
      | [] => true
      end
  | [] => true
  end.

(** ** Sample data for running the model *)

Definition sample_env : upload_env :=
  {| now := 1700000000000; rnd := 999999999; clock := 1700000000;
     insert_err := None; retry_err := None |}.

Definition sample_file : req_file :=
  {| rf_filename := lit "1700000000000-3b9ac9ff-notes.pdf";
     rf_path := lit "/srv/server/uploads/1700000000000-3b9ac9ff-notes.pdf";
     rf_size := 5 |}.

(** A world whose only blob is [f], at the path [p]. *)
Definition world_at (p : jsstring) (f : file) : world :=
  {| files := {[ p := f ]}; documents := []; sequence := 0; trace := [] |}.

(** The same at the path of [sample_file]. *)
Definition world_with (f : file) : world := world_at (rf_path sample_file) f.

(** What SQLite answers, as node-sqlite3 hands it on in [err.message], to
    an INSERT that names a column the table does not have. *)
Definition missing_column_message : jsstring :=
  lit "SQLITE_ERROR: table documents has no column named original_filename".

(** An engine in front of a table created before [original_filename]
    existed: it refuses the full insert and would accept the reduced one. *)
Definition legacy_env : upload_env :=
  {| now := 1700000000000; rnd := 999999999; clock := 1700000000;
     insert_err := Some missing_column_message;
     retry_err := None |}.

(** An engine whose answer to the full insert holds the text that line 156
    looks for, and that accepts the reduced insert. *)
Definition drift_env : upload_env :=
  {| now := 1700000000000; rnd := 999999999; clock := 1700000000;
     insert_err := Some (lit "SQLITE_ERROR: no such column: original_filename");
     retry_err := None |}.

(** Five bytes of text: not a PDF. *)
Definition text_blob : file :=
  {| content := lit "hello"; readable := true; removable := true |}.

(** The same bytes in a blob the system refuses to unlink. *)
Definition stuck_blob : file :=
  {| content := lit "hello"; readable := true; removable := false |}.

(** A blob that begins with the PDF header. *)
Definition pdf_blob : file :=
  {| content := lit "%PDF-1.7"; readable := true; removable := true |}.

(** The world after [sample_file] has been uploaded as [notes.pdf]: one row,
    one blob. *)
Definition recorded_world : world :=
  snd (upload_handler (Some sample_file) (Some (lit "notes.pdf")) sample_env
         (world_with pdf_blob)).

(** Two rows recorded within the same second. *)
Definition same_second_world : world :=
  {| files := ∅;
     documents :=
       [{| id := 1; filename := lit "1700000000000-3b9ac9ff-a.pdf";
           original_filename := Some (lit "a.pdf");
           filepath := lit "/srv/server/uploads/1700000000000-3b9ac9ff-a.pdf";
           filesize := 8; created_at := 1700000000 |};
        {| id := 2; filename := lit "1700000000400-1e240-b.pdf";
           original_filename := Some (lit "b.pdf");
           filepath := lit "/srv/server/uploads/1700000000400-1e240-b.pdf";
           filesize := 8; created_at := 1700000000 |}];
     sequence := 2; trace := [] |}.

(** An engine that returns rows of the same second in the order of their
    insertion. *)
Definition insertion_order (a b : row) : bool := id a <? id b.

(** A part of one byte more than the limit, under the declared type [ty]. *)
Definition oversized_part (ty : jsstring) : part :=
  {| originalname := Some (lit "scan.pdf"); mimetype := ty;
     bytes := repeat 37 (S (N.to_nat fileSize)) |}.

(** Three rows recorded on different days, stored in no particular order. *)
Definition three_rows_world : world :=
  {| files := ∅;
     documents :=
       [{| id := 1; filename := lit "1700000100000-1e240-a.pdf";
           original_filename := Some (lit "a.pdf");
           filepath := lit "/srv/server/uploads/1700000100000-1e240-a.pdf";
           filesize := 8; created_at := 1700000100 |};
        {| id := 2; filename := lit "1700000300000-1e241-b.pdf";
           original_filename := Some (lit "b.pdf");
           filepath := lit "/srv/server/uploads/1700000300000-1e241-b.pdf";
           filesize := 8; created_at := 1700000300 |};
        {| id := 3; filename := lit "1700000200000-1e242-c.pdf";
           original_filename := Some (lit "c.pdf");
           filepath := lit "/srv/server/uploads/1700000200000-1e242-c.pdf";
           filesize := 8; created_at := 1700000200 |}];
     sequence := 3; trace := [] |}.

(** A small part that multer presents with the type [text/plain]. *)
Definition plain_text_part : part :=
  {| originalname := Some (lit "notes.txt"); mimetype := lit "text/plain";
     bytes := lit "hello" |}.

(** * What the handlers do *)
(** ** Facts about the string operations *)

Section StringFacts.
Implicit Types (s t : jsstring) (p : N -> bool).

Lemma drop_while_split p s :
  exists pre, s = pre ++ drop_while p s /\ forallb p pre = true.
Proof.
  induction s as [|c r [pre [E F]]]; simpl.
  - exists []. split; reflexivity.
  - destruct (p c) eqn:Hc.
    + exists (c :: pre). simpl. rewrite Hc, F. split; [congruence | reflexivity].
    + exists []. split; reflexivity.
Qed.

Lemma drop_while_length p s : (length (drop_while p s) <= length s)%nat.
Proof.
  induction s as [|a s IH]; simpl; [lia|]. destruct (p a); simpl; lia.
Qed.

Lemma drop_while_In p s c : In c (drop_while p s) -> In c s.
Proof.
  destruct (drop_while_split p s) as [pre [E _]]. intros Hc.
  rewrite E. apply in_or_app. right. exact Hc.
Qed.

Lemma strip_trailing_In p s c : In c (strip_trailing p s) -> In c s.
Proof.
  unfold strip_trailing. intros Hc. apply in_rev in Hc.
  apply drop_while_In in Hc. apply in_rev. exact Hc.
Qed.

Lemma trim_In s c : In c (trim s) -> In c s.
Proof.
  unfold trim, strip_leading. intros Hc.
  apply strip_trailing_In in Hc. apply drop_while_In in Hc. exact Hc.
Qed.

Lemma remove_all_In p s c : In c (remove_all p s) -> In c s /\ p c = false.
Proof.
  unfold remove_all. intros Hc. apply filter_In in Hc as [Hin Hp].
  split; [exact Hin|]. destruct (p c); [discriminate | reflexivity].
Qed.

Lemma collapse_from_In b s c :
  In c (collapse_from b s) -> c = 32 \/ (In c s /\ is_space c = false).
Proof.
  revert b. induction s as [|a s IH]; simpl; intros b Hc; [contradiction|].
  destruct (is_space a) eqn:Ha.
  - destruct b.
    + destruct (IH _ Hc) as [->|[Hin Hs]]; [left; reflexivity | right; auto].
    + destruct Hc as [<-|Hc]; [left; reflexivity|].
      destruct (IH _ Hc) as [->|[Hin Hs]]; [left; reflexivity | right; auto].
  - destruct Hc as [<-|Hc]; [right; auto|].
    destruct (IH _ Hc) as [->|[Hin Hs]]; [left; reflexivity | right; auto].
Qed.

Lemma slice0_In n s c : In c (slice0 n s) -> In c s.
Proof.
  unfold slice0. intros Hc. rewrite <- (firstn_skipn n s).
  apply in_or_app. left. exact Hc.
Qed.

Lemma truncate_In s : forall budget c, In c (truncate budget s) -> In c s.
Proof.
  induction s as [s IH] using (induction_ltof1 _ (@length N)).
  unfold ltof in IH. intros budget c.
  destruct s as [|h [|l r]]; simpl.
  - tauto.
  - destruct (utf8_length h <=? budget); simpl; tauto.
  - destruct (is_high_surrogate h && is_low_surrogate l).
    + destruct (4 <=? budget); simpl; [|tauto].
      intros [->|[->|Hc]]; auto.
      right. right. apply (IH r) in Hc; [exact Hc | simpl; lia].
    + destruct (utf8_length h <=? budget); [|simpl; tauto].
      intros [->|Hc]; [left; reflexivity|].
      right. apply (IH (l :: r)) in Hc; [exact Hc | simpl; lia].
Qed.

Lemma sanitize_In s c : In c (sanitize s) -> In c s.
Proof.
  unfold sanitize. intros Hc.
  apply truncate_In in Hc. apply strip_trailing_In in Hc.
  destruct (is_windows_reserved _); [contradiction|].
  destruct (is_reserved _); [contradiction|].
  apply remove_all_In in Hc as [Hc _].
  apply remove_all_In in Hc as [Hc _]. exact Hc.
Qed.

End StringFacts.

Ltac nbool :=
  unfold no_control, is_space, is_control, is_line_terminator, is_dot_or_space,
    is_dot, eq_ci, Num.is_hex_digit, Num.is_decimal_digit, Num.digit_char in *;
  repeat match goal with
    | H : context [if ?b then _ else _] |- _ => destruct b eqn:?
    | |- context [if ?b then _ else _] => destruct b eqn:?
    end;
  rewrite ?orb_true_iff, ?andb_true_iff, ?orb_false_iff, ?andb_false_iff,
    ?negb_true_iff, ?negb_false_iff, ?N.eqb_eq, ?N.eqb_neq, ?N.leb_le,
    ?N.leb_gt, ?N.ltb_lt, ?N.ltb_ge in *;
  lia.

Lemma line_terminator_is_space c :
  is_line_terminator c = true -> is_space c = true.
Proof. nbool. Qed.

Lemma ends_with_pdf_inv s :
  ends_with_pdf s = true ->
  exists body dot p d f,
    s = body ++ [dot; p; d; f]
    /\ is_dot dot = true /\ is_pdf_word [p; d; f] = true.
Proof.
  unfold ends_with_pdf. destruct (rev s) as [|f [|d [|p [|dot rest]]]] eqn:E;
    try discriminate.
  intros Hb. exists (rev rest), dot, p, d, f.
  split.
  - rewrite <- (rev_involutive s), E. simpl.
    repeat rewrite <- app_assoc. reflexivity.
  - simpl. apply andb_true_iff in Hb as [Hb Hf].
    apply andb_true_iff in Hb as [Hb Hd].
    apply andb_true_iff in Hb as [Hdot Hp].
    split; [exact Hdot|]. rewrite Hp, Hd, Hf. reflexivity.
Qed.

Lemma ends_with_pdf_app body dot p d f :
  ends_with_pdf (body ++ [dot; p; d; f])
  = is_dot dot && eq_ci p 112 && eq_ci d 100 && eq_ci f 102.
Proof. unfold ends_with_pdf. rewrite rev_app_distr. reflexivity. Qed.

(** ** The sanitizer *)

Section SanitizerFacts.
Context `{Runtime}.

Lemma original_of_In name c :
  In c (original_of name) -> is_control c = false.
Proof.
  unfold original_of. intros Hc. apply trim_In in Hc.
  apply remove_all_In in Hc as [_ Hc]. exact Hc.
Qed.

(** The name before the extension check: every code unit is a blank or a
    code unit of the input that is not whitespace. *)
Lemma cleaned_In original c :
  In c (slice0 MAX_NAME_LEN (trim (collapse_spaces (sanitize original)))) ->
  c = 32 \/ (In c original /\ is_space c = false).
Proof.
  intros Hc. apply slice0_In in Hc. apply trim_In in Hc.
  apply collapse_from_In in Hc as [->|[Hc Hs]]; [left; reflexivity|].
  right. split; [apply sanitize_In; exact Hc | exact Hs].
Qed.

Lemma with_extension_In original c :
  let cleaned :=
    slice0 MAX_NAME_LEN (trim (collapse_spaces (sanitize original))) in
  let named := if falsy cleaned then lit "file.pdf" else cleaned in
  In c (if ends_with_pdf named then named else named ++ lit ".pdf") ->
  In c (lit "file.pdf") \/ c = 32 \/ (In c original /\ is_space c = false).
Proof.
  intros cleaned named Hc.
  assert (Hnamed : forall x, In x named ->
            In x (lit "file.pdf") \/ x = 32
            \/ (In x original /\ is_space x = false)).
  { intros x Hx. subst named. destruct (falsy cleaned).
    - left. exact Hx.
    - right. apply cleaned_In. exact Hx. }
  destruct (ends_with_pdf named); [apply Hnamed; exact Hc|].
  apply in_app_or in Hc as [Hc|Hc]; [apply Hnamed; exact Hc|].
  left. simpl in *. tauto.
Qed.

Lemma safeOriginal_In original c :
  In c (safeOriginal_of original) ->
  In c (lit "file.pdf") \/ c = 32 \/ (In c original /\ is_space c = false).
Proof.
  unfold safeOriginal_of, strip_leading. intros Hc.
  apply drop_while_In in Hc. apply with_extension_In in Hc. exact Hc.
Qed.

Lemma literal_file_pdf c :
  In c (lit "file.pdf") ->
  is_control c = false /\ is_line_terminator c = false.
Proof.
  simpl. intros Hc.
  repeat (destruct Hc as [<-|Hc]; [split; reflexivity|]). contradiction.
Qed.

Lemma safeOriginal_no_control original :
  no_control original = true -> no_control (safeOriginal_of original) = true.
Proof.
  unfold no_control. rewrite !forallb_forall. intros Ho c Hc.
  apply safeOriginal_In in Hc as [Hc|[->|[Hc _]]].
  - apply literal_file_pdf in Hc as [-> _]. reflexivity.
  - reflexivity.
  - apply Ho. exact Hc.
Qed.

(** X2: The sanitized name holds no ASCII control character (0x00-0x1F, 0x7F),
    whatever the client sent. *)
Theorem sanitizer_no_control (name : option jsstring) :
  no_control (sanitizer name) = true.
Proof.
  unfold sanitizer. apply safeOriginal_no_control.
  unfold no_control. apply forallb_forall. intros c Hc.
  rewrite (original_of_In _ _ Hc). reflexivity.
Qed.

Lemma safeOriginal_length original :
  (length (safeOriginal_of original) <= 204)%nat.
Proof.
  unfold safeOriginal_of, strip_leading.
  etransitivity; [apply drop_while_length|].
  set (cleaned := slice0 _ _).
  assert (Hl : (length cleaned <= 200)%nat).
  { subst cleaned. unfold slice0. apply firstn_le_length. }
  destruct (falsy cleaned) eqn:Hf.
  - vm_compute. lia.
  - destruct (ends_with_pdf cleaned); [lia|].
    rewrite length_app. simpl. lia.
Qed.

(** What the strip of leading dots and whitespace leaves of a name that
    ends in the extension. *)
Lemma strip_keeps_extension body dot p d f :
  is_dot dot = true -> is_pdf_word [p; d; f] = true ->
  (forall c, In c body -> is_line_terminator c = false) ->
  let out := strip_leading is_dot_or_space (body ++ [dot; p; d; f]) in
  matches_safe_pattern out = true \/ out = [p; d; f].
Proof.
  intros Hdot Hw. simpl in Hw.
  apply andb_true_iff in Hw as [Hw Hf]. apply andb_true_iff in Hw as [Hp Hd].
  induction body as [|c body IH]; intros Hlt; simpl.
  - right. unfold is_dot_or_space at 1. rewrite Hdot. simpl.
    assert (Hpn : is_dot_or_space p = false).
    { unfold eq_ci in Hp. apply orb_true_iff in Hp as [Hp|Hp];
        apply N.eqb_eq in Hp; subst p; reflexivity. }
    rewrite Hpn. reflexivity.
  - destruct (is_dot_or_space c) eqn:Hc.
    + apply IH. intros x Hx. apply Hlt. right. exact Hx.
    + left. unfold matches_safe_pattern. rewrite Hc. simpl negb.
      rewrite ends_with_pdf_app, Hdot, Hp, Hd, Hf. simpl.
      rewrite length_app. simpl length.
      replace (length body + 4 - 4)%nat with (length body) by lia.
      rewrite firstn_app, Nat.sub_diag, firstn_all. simpl.
      rewrite app_nil_r. apply forallb_forall. intros x Hx.
      rewrite Hlt; [reflexivity | right; exact Hx].
Qed.

Lemma safeOriginal_shape original :
  matches_safe_pattern (safeOriginal_of original) = true
  \/ is_pdf_word (safeOriginal_of original) = true.
Proof.
  unfold safeOriginal_of.
  set (cleaned := slice0 _ _).
  set (named := if falsy cleaned then lit "file.pdf" else cleaned).
  set (ext := if ends_with_pdf named then named else named ++ lit ".pdf").
  assert (Hlt : forall c, In c ext -> is_line_terminator c = false).
  { intros c Hc. apply with_extension_In in Hc as [Hc|[->|[_ Hc]]].
    - apply literal_file_pdf in Hc as [_ Hc]. exact Hc.
    - reflexivity.
    - destruct (is_line_terminator c) eqn:E; [|reflexivity].
      apply line_terminator_is_space in E. congruence. }
  assert (Hext : ends_with_pdf ext = true).
  { subst ext. destruct (ends_with_pdf named) eqn:E; [exact E|].
    change (lit ".pdf") with [46; 112; 100; 102].
    rewrite ends_with_pdf_app. reflexivity. }
  apply ends_with_pdf_inv in Hext as (body & dot & p & d & f & E & Hdot & Hw).
  rewrite E.
  destruct (strip_keeps_extension body dot p d f Hdot Hw) as [Hm|Hm].
  - intros c Hc. apply Hlt. rewrite E. apply in_or_app. left. exact Hc.
  - left. exact Hm.
  - right. rewrite Hm. exact Hw.
Qed.

End SanitizerFacts.

(** ** The content verifier *)

(** Unfolds the monad so that a handler becomes a case analysis on what the
    stores hold. *)
Ltac run_monad :=
  unfold console_error in *;
  unfold try_catch, bind, emit, get_world, set_files, set_table, throw, ret
    in *;
  cbn [files documents sequence trace fst snd] in *.

(** The same, leaving [try]/[catch] blocks whole. *)
Ltac run_steps :=
  unfold bind, emit, get_world, set_files, set_table, ret in *;
  cbn [files documents sequence trace fst snd] in *.

Section VerifierFacts.

Lemma header_of_padded (bytes : list N) :
  Fs.buffer_reads (firstn 4 (bytes ++ [0; 0; 0; 0])) (lit "%PDF")
  = is_prefix (lit "%PDF") bytes.
Proof.
  unfold Fs.buffer_reads. change (lit "%PDF") with [37; 80; 68; 70].
  destruct bytes as [|a [|b [|c [|d r]]]]; cbn [is_prefix firstn app];
    rewrite ?andb_false_r;
    try (apply bool_decide_eq_false; intros E; discriminate E).
  destruct (N.eqb_spec 37 a) as [<-|Ha]; cbn [andb];
    [|apply bool_decide_eq_false; congruence].
  destruct (N.eqb_spec 80 b) as [<-|Hb]; cbn [andb];
    [|apply bool_decide_eq_false; congruence].
  destruct (N.eqb_spec 68 c) as [<-|Hc]; cbn [andb];
    [|apply bool_decide_eq_false; congruence].
  destruct (N.eqb_spec 70 d) as [<-|Hd]; cbn [andb];
    [|apply bool_decide_eq_false; congruence].
  apply bool_decide_eq_true. reflexivity.
Qed.

(** The verifier never throws: it answers [verifiable], and logs when the
    blob could not be opened. *)
Lemma isRealPDF_spec (p : jsstring) (w : world) :
  isRealPDF p w
  = (Return (verifiable w p),
     {| files := files w; documents := documents w; sequence := sequence w;
        trace := trace w ++ FsOpen p ::
                   (if openable w p then []
                    else [ConsoleError (lit "PDF magic-byte check failed:")]) |}).
Proof.
  unfold isRealPDF, Fs.read_head, verifiable, openable, has_pdf_header.
  run_monad.
  destruct (files w !! p) as [f|]; [destruct (readable f)|]; run_monad;
    rewrite <- ?app_assoc, ?header_of_padded; reflexivity.
Qed.

Lemma verifiable_openable (w : world) (p : jsstring) :
  verifiable w p = true -> openable w p = true.
Proof.
  unfold verifiable, openable. destruct (files w !! p) as [f|]; [|discriminate].
  intros Hv. apply andb_true_iff in Hv as [Hr _]. exact Hr.
Qed.

Lemma verifiable_exists (w : world) (p : jsstring) :
  verifiable w p = true -> blob_exists w p = true.
Proof.
  unfold verifiable, blob_exists.
  destruct (files w !! p) as [f|] eqn:E; [|discriminate].
  intros _. apply bool_decide_eq_true. eauto.
Qed.

End VerifierFacts.

(** ** The blob store *)

Section FsFacts.

(** [try { fs.unlinkSync(p) } catch (e) { console.error(what, e) }]. *)
Lemma unlink_or_log (p : jsstring) (what : string) (w : world) :
  try_catch (Fs.unlinkSync p) (fun e => console_error what) w
  = (Return tt,
     {| files := if unlinkable w p then delete p (files w) else files w;
        documents := documents w;
        sequence := sequence w;
        trace := trace w ++ FsUnlink p ::
                   (if unlinkable w p then [] else [ConsoleError (lit what)]) |}).
Proof.
  unfold Fs.unlinkSync, unlinkable. run_monad.
  destruct (files w !! p) as [f|]; [destruct (removable f)|]; run_monad;
    rewrite <- ?app_assoc; reflexivity.
Qed.

(** [try { fs.unlinkSync(p) } catch (e) { /* ignore */ }]. *)
Lemma unlink_or_ignore (p : jsstring) (w : world) :
  try_catch (Fs.unlinkSync p) (fun e => ret tt) w
  = (Return tt,
     {| files := if unlinkable w p then delete p (files w) else files w;
        documents := documents w;
        sequence := sequence w;
        trace := trace w ++ [FsUnlink p] |}).
Proof.
  unfold Fs.unlinkSync, unlinkable. run_monad.
  destruct (files w !! p) as [f|]; [destruct (removable f)|]; run_monad;
    reflexivity.
Qed.

Lemma existsSync_spec (p : jsstring) (w : world) :
  Fs.existsSync p w
  = (Return (blob_exists w p),
     {| files := files w; documents := documents w; sequence := sequence w;
        trace := trace w ++ [FsExists p] |}).
Proof. reflexivity. Qed.

End FsFacts.

(** ** Counting events *)

Lemma count_event_app (p : event -> bool) (w w' : world) (log : list event) :
  trace w' = trace w ++ log ->
  count_event p w' = (count_event p w + length (List.filter p log))%nat.
Proof.
  unfold count_event. intros ->. rewrite List.filter_app, length_app. reflexivity.
Qed.

Lemma eqb_same (s : jsstring) : Js.eqb s s = true.
Proof. apply bool_decide_eq_true. reflexivity. Qed.

(** Counts the events a handler added, given the trace it left. *)
Ltac count_added :=
  erewrite count_event_app by (cbn [trace]; reflexivity);
  cbn [List.filter is_insert is_insert_full is_insert_reduced is_unlink_of
       is_open is_delete length];
  rewrite ?eqb_same; cbn [length]; lia.

(** ** The upload handler *)

Section UploadFacts.

(** C1 (amended): when the stored blob fails verification, the handler makes
    one attempt to unlink it, issues no insert, and answers 400 without
    throwing.  The blob is gone afterwards unless the unlink was refused, and
    a refused unlink is logged. *)
Theorem C1_unverified_upload_is_refused
    (w : world) (f : req_file) (saved : option jsstring) (env : upload_env) :
  fst (isRealPDF (rf_path f) w) = Return false ->
  exists w',
    upload_handler (Some f) saved env w
    = (Return (json_error 400 (lit "Uploaded file is not a valid PDF")), w')
    /\ documents w' = documents w
    /\ count_event is_insert w' = count_event is_insert w
    /\ count_event (is_unlink_of (rf_path f)) w'
       = S (count_event (is_unlink_of (rf_path f)) w)
    /\ blob_exists w' (rf_path f)
       = blob_exists w (rf_path f) && negb (unlinkable w (rf_path f))
    /\ (unlinkable w (rf_path f) = false ->
        In (ConsoleError (lit "Failed to remove non-PDF file:")) (trace w')).
Proof.
  intros Hv. pose proof (isRealPDF_spec (rf_path f) w) as E.
  rewrite E in Hv. cbn [fst] in Hv. injection Hv as Hv.
  unfold upload_handler. unfold bind at 1. rewrite E, Hv. cbn [negb].
  unfold bind at 1. rewrite unlink_or_log. unfold ret.
  eexists. split; [reflexivity|]. cbn [files documents sequence trace].
  split; [reflexivity|].
  set (p := rf_path f). set (log := if openable w p then [] else _).
  assert (Hl : forall q, (forall m, q (ConsoleError m) = false) ->
            List.filter q log = []).
  { intros q Hq. subst log. destruct (openable w p); simpl; [|rewrite Hq];
      reflexivity. }
  unfold blob_exists, unlinkable. cbn [files trace].
  split; [|split; [|split]].
  - erewrite count_event_app; [|cbn [trace]; rewrite <- app_assoc; reflexivity].
    rewrite List.filter_app. cbn [List.filter is_insert]. rewrite Hl by reflexivity.
    destruct (files w !! p) as [[c r []]|]; simpl; lia.
  - erewrite count_event_app; [|cbn [trace]; rewrite <- app_assoc; reflexivity].
    rewrite List.filter_app. cbn [List.filter]. rewrite Hl by reflexivity.
    cbn [is_unlink_of]. rewrite eqb_same.
    destruct (files w !! p) as [[c r []]|]; simpl; lia.
  - destruct (files w !! p) as [[c r []]|] eqn:Ef; cbn [removable negb andb].
    + rewrite lookup_delete_eq. reflexivity.
    + rewrite Ef. rewrite andb_true_r. reflexivity.
    + rewrite Ef. reflexivity.
  - intros Hu. apply in_or_app. right. right. rewrite Hu. left. reflexivity.
Qed.

Lemma C1_witness :
  exists w',
    upload_handler (Some sample_file) None sample_env (world_with text_blob)
    = (Return (json_error 400 (lit "Uploaded file is not a valid PDF")), w')
    /\ documents w' = documents (world_with text_blob)
    /\ count_event is_insert w' = count_event is_insert (world_with text_blob)
    /\ count_event (is_unlink_of (rf_path sample_file)) w'
       = S (count_event (is_unlink_of (rf_path sample_file))
              (world_with text_blob))
    /\ blob_exists w' (rf_path sample_file)
       = blob_exists (world_with text_blob) (rf_path sample_file)
         && negb (unlinkable (world_with text_blob) (rf_path sample_file))
    /\ (unlinkable (world_with text_blob) (rf_path sample_file) = false ->
        In (ConsoleError (lit "Failed to remove non-PDF file:")) (trace w')).
Proof.
  apply (C1_unverified_upload_is_refused (world_with text_blob) sample_file
           None sample_env).
  vm_compute. reflexivity.
Defined.

(** C1 as stated fails where the unlink is refused: the handler answers 400
    and the blob that failed verification is still in the store. *)
Lemma C1_blob_survives_refused_unlink :
  fst (isRealPDF (rf_path sample_file) (world_with stuck_blob)) = Return false
  /\ fst (upload_handler (Some sample_file) None sample_env
            (world_with stuck_blob))
     = Return (json_error 400 (lit "Uploaded file is not a valid PDF"))
  /\ blob_exists
       (snd (upload_handler (Some sample_file) None sample_env
               (world_with stuck_blob)))
       (rf_path sample_file)
     = true.
Proof. vm_compute. repeat split. Qed.

End UploadFacts.

(** ** The sanitizer on the names that matter *)

Section SanitizerAtWork.
Context `{Runtime}.

Lemma original_of_ascii (name : jsstring) :
  forallb (fun c => c <? 128) name = true ->
  falsy name = false ->
  original_of (Some name) = trim (remove_all is_control name).
Proof.
  intros Ha Hn. unfold original_of, or_else. rewrite Hn.
  rewrite normalize_ascii by exact Ha. reflexivity.
Qed.

(** C2: the sanitizer breaks its own promise on the name [.pdf]: the
    extension check finds the suffix, the strip of leading dots then eats its
    dot, and what is left is [pdf], which does not end in [.pdf]. *)
Theorem C2_bare_extension_loses_its_dot :
  sanitizer (Some (lit ".pdf")) = lit "pdf"
  /\ matches_safe_pattern (sanitizer (Some (lit ".pdf"))) = false
  /\ ends_with_pdf (sanitizer (Some (lit ".pdf"))) = false.
Proof.
  assert (E : sanitizer (Some (lit ".pdf")) = lit "pdf").
  { unfold sanitizer. rewrite original_of_ascii by reflexivity.
    vm_compute. reflexivity. }
  rewrite E. repeat split.
Qed.

End SanitizerAtWork.

(** ** Numbers as text *)

Section NumFacts.

Lemma digit_value_char (d : N) : d < 36 -> Num.digit_value (Num.digit_char d) = d.
Proof.
  intros Hd. unfold Num.digit_value, Num.digit_char.
  destruct (N.ltb_spec d 10).
  - destruct (N.ltb_spec (48 + d) 58); lia.
  - destruct (N.ltb_spec (87 + d) 58); lia.
Qed.

(** The digits, least significant first, add up to the number when the fuel
    covers its bits. *)
Lemma digits_rev_value (radix : N) :
  2 <= radix -> radix <= 36 ->
  forall fuel n, n < 2 ^ N.of_nat fuel ->
    List.fold_right (fun c acc => acc * radix + Num.digit_value c) 0
      (Num.digits_rev fuel radix n) = n.
Proof.
  intros Hlo Hhi. induction fuel as [|fuel IH]; intros n Hn.
  - simpl in *. lia.
  - cbn [Num.digits_rev]. destruct (N.ltb_spec n radix) as [Hs|Hs].
    + cbn [List.fold_right]. rewrite digit_value_char by lia. lia.
    + cbn [List.fold_right]. rewrite IH.
      * rewrite digit_value_char.
        -- pose proof (N.div_mod n radix ltac:(lia)). lia.
        -- pose proof (N.mod_upper_bound n radix ltac:(lia)). lia.
      * rewrite Nat2N.inj_succ, N.pow_succ_r' in Hn.
        apply N.Div0.div_lt_upper_bound. nia.
Qed.

Lemma digits_rev_class (P : N -> bool) (radix : N) :
  0 < radix ->
  (forall d, d < radix -> P (Num.digit_char d) = true) ->
  forall fuel n, forallb P (Num.digits_rev fuel radix n) = true.
Proof.
  intros Hr HP. induction fuel as [|fuel IH]; intros n; [reflexivity|].
  cbn [Num.digits_rev]. destruct (N.ltb_spec n radix) as [Hs|Hs];
    cbn [forallb].
  - rewrite HP by exact Hs. reflexivity.
  - rewrite HP, IH; [reflexivity|]. apply N.mod_upper_bound. lia.
Qed.

Lemma forallb_reversed (P : N -> bool) (s : jsstring) :
  forallb P s = true -> forallb P (rev s) = true.
Proof.
  rewrite !forallb_forall. intros Hs c Hc. apply Hs, in_rev. exact Hc.
Qed.

Lemma bits_cover (n : N) : n < 2 ^ N.of_nat (S (N.to_nat (N.log2 n))).
Proof.
  rewrite Nat2N.inj_succ, N2Nat.id.
  destruct (N.eq_dec n 0) as [->|Hn]; [reflexivity|].
  apply N.log2_spec. lia.
Qed.

(** [parseInt(n.toString(radix), radix) === n]. *)
Lemma parseInt_toString (radix n : N) :
  2 <= radix -> radix <= 36 -> Num.parseInt radix (Num.toString radix n) = n.
Proof.
  intros Hlo Hhi. unfold Num.parseInt, Num.toString.
  rewrite <- fold_left_rev_right, rev_involutive.
  apply digits_rev_value; [exact Hlo | exact Hhi | apply bits_cover].
Qed.


Lemma toString_decimal (n : N) :
  forallb Num.is_decimal_digit (Num.toString 10 n) = true.
Proof.
  unfold Num.toString. apply forallb_reversed, digits_rev_class; [lia|].
  intros d Hd. unfold Num.is_decimal_digit, Num.digit_char.
  destruct (N.ltb_spec d 10); [|lia].
  apply andb_true_iff. split; apply N.leb_le; lia.
Qed.

Lemma toString_hex (n : N) :
  forallb Num.is_hex_digit (Num.toString 16 n) = true.
Proof.
  unfold Num.toString. apply forallb_reversed, digits_rev_class; [lia|].
  intros d Hd. unfold Num.is_hex_digit, Num.is_decimal_digit, Num.digit_char.
  apply orb_true_iff.
  destruct (N.ltb_spec d 10); [left | right];
    apply andb_true_iff; split; apply N.leb_le; lia.
Qed.

End NumFacts.

(** ** The unique name *)

Section KeyFacts.

Lemma hex_digit_is_no_dash (c : N) : Num.is_hex_digit c = true -> (c =? 45) = false.
Proof.
  unfold Num.is_hex_digit, Num.is_decimal_digit.
  rewrite orb_true_iff, !andb_true_iff, !N.leb_le, N.eqb_neq. lia.
Qed.

Lemma decimal_digit_is_hex (c : N) :
  Num.is_decimal_digit c = true -> Num.is_hex_digit c = true.
Proof. unfold Num.is_hex_digit. intros ->. reflexivity. Qed.

(** A text without dashes followed by a dash is read back in one way. *)
Lemma split_at_dash (a a' r r' : jsstring) :
  forallb Num.is_hex_digit a = true -> forallb Num.is_hex_digit a' = true ->
  a ++ 45 :: r = a' ++ 45 :: r' -> a = a' /\ r = r'.
Proof.
  revert a'. induction a as [|c a IH]; intros [|c' a'] Ha Ha' E;
    cbn [app forallb] in *.
  - injection E as ->. split; reflexivity.
  - injection E as <- _. apply andb_true_iff in Ha' as [Hc _].
    apply hex_digit_is_no_dash in Hc. discriminate Hc.
  - injection E as -> _. apply andb_true_iff in Ha as [Hc _].
    apply hex_digit_is_no_dash in Hc. discriminate Hc.
  - injection E as -> E. apply andb_true_iff in Ha as [_ Ha].
    apply andb_true_iff in Ha' as [_ Ha'].
    destruct (IH a' Ha Ha' E) as [-> ->]. split; reflexivity.
Qed.

Lemma toString_decimal_as_hex (n : N) :
  forallb Num.is_hex_digit (Num.toString 10 n) = true.
Proof.
  pose proof (toString_decimal n) as Hd. rewrite forallb_forall in *.
  intros c Hc. apply decimal_digit_is_hex, Hd, Hc.
Qed.




(** Keys are told apart by any of their three parts. *)
Lemma storedName_injective (now now' rnd rnd' : N) (name name' : jsstring) :
  storedName now rnd name = storedName now' rnd' name' ->
  now = now' /\ rnd = rnd' /\ name = name'.
Proof.
  unfold storedName, uniquePrefix. change (lit "-") with [45].
  rewrite <- !app_assoc. cbn [app]. intros E.
  apply split_at_dash in E as [En E]; try apply toString_decimal_as_hex.
  apply split_at_dash in E as [Er E]; try apply toString_hex.
  apply (f_equal (Num.parseInt 10)) in En.
  apply (f_equal (Num.parseInt 16)) in Er.
  rewrite !parseInt_toString in En, Er by lia.
  auto.
Qed.

End KeyFacts.

(** ** The upload handler on a blob that passes verification *)

Section RecordingFacts.

Lemma upload_handler_verified (w : world) (f : req_file)
    (saved : option jsstring) (env : upload_env) :
  verifiable w (rf_path f) = true ->
  upload_handler (Some f) saved env w
  = match insert_err env with
    | None =>
        (Return {| status := 201;
                   payload :=
                     JsonUploaded (Db.next_id w) (rf_filename f)
                       (Some (or_else saved (rf_filename f))) (rf_size f)
                       (lit "File uploaded successfully") |},
         {| files := files w;
            documents :=
              documents w ++
                [{| id := Db.next_id w; filename := rf_filename f;
                    original_filename := Some (or_else saved (rf_filename f));
                    filepath := rf_path f; filesize := rf_size f;
                    created_at := clock env |}];
            sequence := Db.next_id w;
            trace := trace w ++ [FsOpen (rf_path f);
                                 SqlInsertFull (rf_filename f)] |})
    | Some message =>
        if is_missing_column message then
          match retry_err env with
          | None =>
              (Return {| status := 201;
                         payload :=
                           JsonUploaded (Db.next_id w) (rf_filename f) None
                             (rf_size f)
                             (lit "File uploaded successfully (original_filename column not present)") |},
               {| files := files w;
                  documents :=
                    documents w ++
                      [{| id := Db.next_id w; filename := rf_filename f;
                          original_filename := None;
                          filepath := rf_path f; filesize := rf_size f;
                          created_at := clock env |}];
                  sequence := Db.next_id w;
                  trace := trace w ++ [FsOpen (rf_path f);
                                       SqlInsertFull (rf_filename f);
                                       SqlInsertReduced (rf_filename f)] |})
          | Some message2 =>
              (Return (database_error message2),
               {| files := if unlinkable w (rf_path f)
                           then delete (rf_path f) (files w) else files w;
                  documents := documents w;
                  sequence := sequence w;
                  trace := trace w ++ [FsOpen (rf_path f);
                                       SqlInsertFull (rf_filename f);
                                       SqlInsertReduced (rf_filename f);
                                       FsUnlink (rf_path f)] |})
          end
        else
          (Return (database_error message),
           {| files := if unlinkable w (rf_path f)
                       then delete (rf_path f) (files w) else files w;
              documents := documents w;
              sequence := sequence w;
              trace := trace w ++ [FsOpen (rf_path f);
                                   SqlInsertFull (rf_filename f);
                                   FsUnlink (rf_path f)] |})
    end.
Proof.
  intros Hv. unfold upload_handler. unfold bind at 1.
  rewrite isRealPDF_spec, Hv, (verifiable_openable _ _ Hv). cbn [negb].
  unfold Db.insert_full, Db.insert_reduced.
  destruct (insert_err env) as [message|].
  - run_steps. destruct (is_missing_column message).
    + destruct (retry_err env) as [message2|]; run_steps.
      * rewrite unlink_or_ignore. unfold unlinkable.
        cbn [files documents sequence trace].
        rewrite <- !app_assoc. reflexivity.
      * unfold Db.next_id. cbn [files documents sequence trace].
        rewrite <- !app_assoc. reflexivity.
    + rewrite unlink_or_ignore. unfold unlinkable.
      cbn [files documents sequence trace].
      rewrite <- !app_assoc. reflexivity.
  - run_steps. unfold Db.next_id. cbn [files documents sequence trace].
    rewrite <- !app_assoc. reflexivity.
Qed.

End RecordingFacts.

Section InsertFacts.

Lemma verified_by_code (w : world) (p : jsstring) (b : bool) :
  fst (isRealPDF p w) = Return b -> verifiable w p = b.
Proof. rewrite isRealPDF_spec. cbn [fst]. intros E. injection E as E. exact E. Qed.

(** C3: a table without the column makes the engine refuse the full insert
    with [missing_column_message].  The test of line 156 looks for another
    wording and does not recognise it: the handler issues no reduced insert,
    tries once to unlink the blob, and answers 500 with the message; no row
    is stored. *)
Theorem C3_missing_column_is_not_recognised
    (w : world) (f : req_file) (saved : option jsstring) (env : upload_env) :
  fst (isRealPDF (rf_path f) w) = Return true ->
  insert_err env = Some missing_column_message ->
  let res := upload_handler (Some f) saved env w in
  is_missing_column missing_column_message = false
  /\ fst res
     = Return (json_error 500
                 (lit "Database error: " ++ missing_column_message))
  /\ count_event is_insert_reduced (snd res)
     = count_event is_insert_reduced w
  /\ count_event (is_unlink_of (rf_path f)) (snd res)
     = S (count_event (is_unlink_of (rf_path f)) w)
  /\ documents (snd res) = documents w.
Proof.
  intros Hv He res. apply verified_by_code in Hv. subst res.
  assert (Hm : is_missing_column missing_column_message = false)
    by (vm_compute; reflexivity).
  rewrite (upload_handler_verified w f saved env Hv), He, Hm. cbn [fst snd].
  split; [reflexivity|]. split; [reflexivity|].
  split; [count_added|]. split; [count_added | reflexivity].
Qed.

Lemma C3_witness :
  fst (upload_handler (Some sample_file) None legacy_env (world_with pdf_blob))
  = Return (json_error 500 (lit "Database error: " ++ missing_column_message))
  /\ count_event is_insert_reduced
       (snd (upload_handler (Some sample_file) None legacy_env
               (world_with pdf_blob)))
     = 0%nat.
Proof.
  assert (Hv : fst (isRealPDF (rf_path sample_file) (world_with pdf_blob))
               = Return true) by (vm_compute; reflexivity).
  destruct (C3_missing_column_is_not_recognised (world_with pdf_blob)
              sample_file None legacy_env Hv eq_refl)
    as (_ & Hres & Hcount & _).
  split; [exact Hres | exact Hcount].
Defined.

(** X19: what the handler does when the full insert has failed with
    [message].  If the message holds the text [no such column:
    original_filename], the handler issues the reduced insert once; when that
    one succeeds it answers 201 and the row is stored without a display name,
    and when it fails too the handler tries to unlink the blob and answers
    500 with the second message.  For any other message there is no second
    insert: one attempt to unlink the blob, then 500 with the message.  In no
    case is the full insert repeated. *)
Theorem insert_failure_paths
    (w : world) (f : req_file) (saved : option jsstring) (env : upload_env)
    (message : jsstring) :
  fst (isRealPDF (rf_path f) w) = Return true ->
  insert_err env = Some message ->
  let res := upload_handler (Some f) saved env w in
  let w' := snd res in
  count_event is_insert_full w' = S (count_event is_insert_full w)
  /\ (is_missing_column message = true ->
      count_event is_insert_reduced w' = S (count_event is_insert_reduced w)
      /\ match retry_err env with
         | None =>
             fst res
             = Return {| status := 201;
                         payload :=
                           JsonUploaded (Db.next_id w) (rf_filename f) None
                             (rf_size f)
                             (lit "File uploaded successfully (original_filename column not present)") |}
             /\ documents w'
                = documents w ++
                    [{| id := Db.next_id w; filename := rf_filename f;
                        original_filename := None;
                        filepath := rf_path f; filesize := rf_size f;
                        created_at := clock env |}]
             /\ files w' = files w
         | Some message2 =>
             fst res = Return (database_error message2)
             /\ documents w' = documents w
             /\ count_event (is_unlink_of (rf_path f)) w'
                = S (count_event (is_unlink_of (rf_path f)) w)
             /\ blob_exists w' (rf_path f) = negb (unlinkable w (rf_path f))
         end)
  /\ (is_missing_column message = false ->
      count_event is_insert_reduced w' = count_event is_insert_reduced w
      /\ fst res = Return (database_error message)
      /\ documents w' = documents w
      /\ count_event (is_unlink_of (rf_path f)) w'
         = S (count_event (is_unlink_of (rf_path f)) w)
      /\ blob_exists w' (rf_path f) = negb (unlinkable w (rf_path f))).
Proof.
  intros Hv He res w'. apply verified_by_code in Hv.
  assert (Hblob : blob_exists
                    {| files := if unlinkable w (rf_path f)
                                then delete (rf_path f) (files w) else files w;
                       documents := documents w; sequence := sequence w;
                       trace := [] |} (rf_path f)
                  = negb (unlinkable w (rf_path f))).
  { apply verifiable_exists in Hv. unfold blob_exists, unlinkable in *.
    cbn [files]. destruct (files w !! rf_path f) as [[c r []]|] eqn:Ef;
      cbn [removable negb].
    - rewrite lookup_delete_eq. reflexivity.
    - rewrite Ef. exact Hv.
    - rewrite Ef. exact Hv. }
  subst w' res. rewrite (upload_handler_verified w f saved env Hv), He.
  destruct (is_missing_column message).
  - destruct (retry_err env) as [message2|]; cbn [fst snd].
    + split; [count_added|]. split; [|intros Hc; discriminate Hc].
      intros _. split; [count_added|]. split; [reflexivity|].
      split; [reflexivity|]. split; [count_added | exact Hblob].
    + split; [count_added|]. split; [|intros Hc; discriminate Hc].
      intros _. split; [count_added|]. repeat split.
  - cbn [fst snd]. split; [count_added|]. split; [intros Hc; discriminate Hc|].
    intros _. split; [count_added|]. split; [reflexivity|].
    split; [reflexivity|]. split; [count_added | exact Hblob].
Qed.

Lemma insert_failure_paths_witness :
  fst (upload_handler (Some sample_file) None drift_env (world_with pdf_blob))
  = Return {| status := 201;
              payload :=
                JsonUploaded 1 (rf_filename sample_file) None
                  (rf_size sample_file)
                  (lit "File uploaded successfully (original_filename column not present)") |}
  /\ count_event is_insert_reduced
       (snd (upload_handler (Some sample_file) None drift_env
               (world_with pdf_blob)))
     = 1%nat.
Proof.
  assert (Hv : fst (isRealPDF (rf_path sample_file) (world_with pdf_blob))
               = Return true) by (vm_compute; reflexivity).
  destruct (insert_failure_paths (world_with pdf_blob) sample_file None
              drift_env _ Hv eq_refl) as (_ & Hdrift & _).
  destruct (Hdrift eq_refl) as (Hcount & Hres & _).
  split; [exact Hres | exact Hcount].
Defined.

End InsertFacts.

(** ** The display name *)

Section DisplayNameFacts.
Context `{Runtime}.

(** C9 (amended): the name recorded as [original_filename] and returned in
    the answer is the client's name after normalisation, removal of control
    characters and trimming, not the sanitized name that is part of the
    storage key; when nothing is left of it, it is the storage key. *)
Theorem C9_display_name_is_the_trimmed_original
    (w : world) (name : option jsstring) (size : N) (env : upload_env) :
  let n := storage_filename name (now env) (rnd env) in
  let key := storedName (now env) (rnd env) (sanitizer name) in
  let display := or_else (Some (original_of name)) key in
  fst (isRealPDF (rf_path (stored_file n size)) w) = Return true ->
  insert_err env = None ->
  let res :=
    upload_handler (Some (stored_file n size))
      (Some (savedOriginalFilename n)) env w in
  fst res
  = Return {| status := 201;
              payload :=
                JsonUploaded (Db.next_id w) key (Some display) size
                  (lit "File uploaded successfully") |}
  /\ documents (snd res)
     = documents w ++
         [{| id := Db.next_id w; filename := key;
             original_filename := Some display;
             filepath := path_join uploadsDir key;
             filesize := size; created_at := clock env |}]
  /\ (falsy (original_of name) = false -> display = original_of name)
  /\ (falsy (original_of name) = true -> display = key).
Proof.
  intros n key display Hv He res. apply verified_by_code in Hv.
  subst res. rewrite (upload_handler_verified w _ _ env Hv), He.
  cbn [fst snd]. split; [reflexivity|]. split; [reflexivity|].
  subst display. unfold or_else. split; intros ->; reflexivity.
Qed.

End DisplayNameFacts.

Lemma C9_witness :
  exists i,
    fst (upload_handler
           (Some (stored_file
                    (storage_filename (Some (lit "notes.txt"))
                       (now sample_env) (rnd sample_env)) 8))
           (Some (lit "notes.txt")) sample_env
           (world_at
              (lit "/srv/server/uploads/1700000000000-3b9ac9ff-notes.txt.pdf")
              pdf_blob))
    = Return {| status := 201;
                payload :=
                  JsonUploaded i
                    (lit "1700000000000-3b9ac9ff-notes.txt.pdf")
                    (Some (lit "notes.txt")) 8
                    (lit "File uploaded successfully") |}.
Proof.
  exists 1.
  assert (Hv : fst (isRealPDF
                      (rf_path (stored_file
                                  (storage_filename (Some (lit "notes.txt"))
                                     (now sample_env) (rnd sample_env)) 8))
                      (world_at
                         (lit "/srv/server/uploads/1700000000000-3b9ac9ff-notes.txt.pdf")
                         pdf_blob))
               = Return true) by (vm_compute; reflexivity).
  destruct (C9_display_name_is_the_trimmed_original
              (world_at
                 (lit "/srv/server/uploads/1700000000000-3b9ac9ff-notes.txt.pdf")
                 pdf_blob)
              (Some (lit "notes.txt")) 8 sample_env Hv eq_refl)
    as (Hres & _).
  exact Hres.
Defined.

(** C9 as stated makes the recorded name the sanitizer's output: for the
    client name [notes.txt] the row records [notes.txt], while the sanitizer
    gives [notes.txt.pdf]; the recorded name does not have the promised
    shape. *)
Lemma C9_recorded_name_keeps_its_extension :
  List.map original_filename
    (documents
       (snd (upload_handler
               (Some (stored_file
                        (storage_filename (Some (lit "notes.txt"))
                           (now sample_env) (rnd sample_env)) 8))
               (Some (savedOriginalFilename
                        (storage_filename (Some (lit "notes.txt"))
                           (now sample_env) (rnd sample_env))))
               sample_env
               (world_at
                  (lit "/srv/server/uploads/1700000000000-3b9ac9ff-notes.txt.pdf")
                  pdf_blob))))
  = [Some (lit "notes.txt")]
  /\ sanitizer (Some (lit "notes.txt")) = lit "notes.txt.pdf"
  /\ matches_safe_pattern (lit "notes.txt") = false.
Proof. vm_compute. repeat split. Qed.

(** ** Download and deletion *)

Section RetrievalFacts.

Lemma lookup_filtered (i : N) (rows : list row) :
  Db.lookup i (List.filter (fun r => negb (id r =? i)) rows) = None.
Proof.
  unfold Db.lookup. induction rows as [|r rows IH]; [reflexivity|].
  cbn [List.filter]. destruct (id r =? i) eqn:E; cbn [negb]; [exact IH|].
  cbn [List.find]. rewrite E. exact IH.
Qed.

Lemma download_handler_run (w : world) (i : N) (err : option jsstring) :
  download_handler i err w
  = match err with
    | Some message =>
        (Return (database_error message),
         {| files := files w; documents := documents w;
            sequence := sequence w;
            trace := trace w ++ [SqlSelectById i] |})
    | None =>
        match Db.lookup i (documents w) with
        | None =>
            (Return (json_error 404 (lit "Document not found")),
             {| files := files w; documents := documents w;
                sequence := sequence w;
                trace := trace w ++ [SqlSelectById i] |})
        | Some doc =>
            (Return (if blob_exists w (filepath doc)
                     then {| status := 200;
                             payload :=
                               Download (filepath doc) (downloadName doc) |}
                     else json_error 404 (lit "File not found on server")),
             {| files := files w; documents := documents w;
                sequence := sequence w;
                trace := trace w ++ [SqlSelectById i;
                                     FsExists (filepath doc)] |})
        end
    end.
Proof.
  unfold download_handler, Db.get, Fs.existsSync, blob_exists.
  destruct err as [message|]; run_steps; [reflexivity|].
  destruct (Db.lookup i (documents w)) as [doc|]; [|reflexivity].
  cbn [files documents sequence trace]. rewrite <- app_assoc.
  destruct (bool_decide (is_Some (files w !! filepath doc))); reflexivity.
Qed.

Lemma delete_handler_run (w : world) (i : N)
    (lookup_err delete_err : option jsstring) :
  delete_handler i lookup_err delete_err w
  = match lookup_err with
    | Some message =>
        (Return (database_error message),
         {| files := files w; documents := documents w;
            sequence := sequence w;
            trace := trace w ++ [SqlSelectById i] |})
    | None =>
        match Db.lookup i (documents w) with
        | None =>
            (Return (json_error 404 (lit "Document not found")),
             {| files := files w; documents := documents w;
                sequence := sequence w;
                trace := trace w ++ [SqlSelectById i] |})
        | Some doc =>
            (Return
               match delete_err with
               | Some message => database_error message
               | None =>
                   {| status := 200;
                      payload :=
                        JsonMessage (lit "Document deleted successfully") |}
               end,
             {| files := if unlinkable w (filepath doc)
                         then delete (filepath doc) (files w) else files w;
                documents :=
                  match delete_err with
                  | Some _ => documents w
                  | None =>
                      List.filter (fun r => negb (id r =? i)) (documents w)
                  end;
                sequence := sequence w;
                trace :=
                  trace w ++
                    [SqlSelectById i; FsExists (filepath doc)] ++
                    (if blob_exists w (filepath doc)
                     then FsUnlink (filepath doc) ::
                            (if unlinkable w (filepath doc) then []
                             else [ConsoleError (lit "Error deleting file:")])
                     else []) ++
                    [SqlDeleteById i] |})
        end
    end.
Proof.
  unfold delete_handler, Db.get.
  destruct lookup_err as [message|]; run_steps; [reflexivity|].
  destruct (Db.lookup i (documents w)) as [doc|]; [|reflexivity].
  cbn [files documents sequence trace].
  rewrite existsSync_spec. unfold blob_exists at 1. cbn [files].
  fold (blob_exists w (filepath doc)).
  destruct (blob_exists w (filepath doc)) eqn:Hb.
  - rewrite unlink_or_log. unfold Db.delete. run_steps.
    unfold unlinkable. cbn [files].
    destruct delete_err; run_steps; rewrite <- !app_assoc; reflexivity.
  - assert (Hu : unlinkable w (filepath doc) = false).
    { unfold unlinkable, blob_exists in *.
      destruct (files w !! filepath doc) as [b|] eqn:E; [|reflexivity].
      apply bool_decide_eq_false in Hb. exfalso. apply Hb. eauto. }
    rewrite Hu. unfold Db.delete. run_steps.
    destruct delete_err; run_steps; rewrite <- !app_assoc; reflexivity.
Qed.

End RetrievalFacts.

Section RetrievalOutcomes.

Lemma blob_after_delete_attempt (w : world) (p : jsstring) (rows : list row)
    (n : N) (log : list event) :
  blob_exists
    {| files := if unlinkable w p then delete p (files w) else files w;
       documents := rows; sequence := n; trace := log |} p
  = blob_exists w p && negb (unlinkable w p).
Proof.
  unfold blob_exists, unlinkable. cbn [files].
  destruct (files w !! p) as [[c r []]|] eqn:Ef; cbn [removable negb].
  - rewrite lookup_delete_eq. reflexivity.
  - rewrite Ef, andb_true_r. reflexivity.
  - rewrite Ef. reflexivity.
Qed.

(** C5 (amended): the deletion answers 500 when the lookup query fails, and
    then touches nothing; it answers 404 when there is no row; otherwise it
    asks once for the row to be deleted, whether the blob was absent, was
    removed, or could not be removed, and answers 500 only if that deletion
    fails, the row staying in place.  After a successful deletion the row
    is gone and a second deletion answers 404.  No path throws. *)
Theorem C5_deletion_outcomes
    (w : world) (i : N) (lookup_err delete_err : option jsstring) :
  let res := delete_handler i lookup_err delete_err w in
  let w' := snd res in
  (forall m, lookup_err = Some m ->
     fst res = Return (database_error m)
     /\ documents w' = documents w /\ files w' = files w
     /\ count_event is_delete w' = count_event is_delete w)
  /\ (lookup_err = None -> Db.lookup i (documents w) = None ->
      fst res = Return (json_error 404 (lit "Document not found"))
      /\ documents w' = documents w /\ files w' = files w)
  /\ (forall doc,
        lookup_err = None -> Db.lookup i (documents w) = Some doc ->
        count_event is_delete w' = S (count_event is_delete w)
        /\ blob_exists w' (filepath doc)
           = blob_exists w (filepath doc) && negb (unlinkable w (filepath doc))
        /\ (forall m, delete_err = Some m ->
              fst res = Return (database_error m)
              /\ documents w' = documents w)
        /\ (delete_err = None ->
              fst res
              = Return {| status := 200;
                          payload :=
                            JsonMessage (lit "Document deleted successfully") |}
              /\ documents w'
                 = List.filter (fun r => negb (id r =? i)) (documents w)
              /\ fst (delete_handler i None None w')
                 = Return (json_error 404 (lit "Document not found")))).
Proof.
  intros res w'. subst w' res. rewrite delete_handler_run.
  split; [|split].
  - intros m ->. cbn [fst snd documents files]. repeat split.
    erewrite count_event_app by (cbn [trace]; reflexivity).
    cbn [List.filter is_delete length]. lia.
  - intros -> ->. cbn [fst snd documents files]. repeat split.
  - intros doc -> ->. cbn [fst snd documents]. split; [|split; [|split]].
    + erewrite count_event_app by (cbn [trace]; reflexivity).
      rewrite !List.filter_app. cbn [List.filter is_delete].
      destruct (blob_exists w (filepath doc));
        [destruct (unlinkable w (filepath doc))|]; cbn [List.filter is_delete app length]; lia.
    + apply blob_after_delete_attempt.
    + intros m ->. split; reflexivity.
    + intros ->. split; [reflexivity|]. split; [reflexivity|].
      rewrite delete_handler_run. cbn [documents].
      rewrite lookup_filtered. reflexivity.
Qed.

Lemma C5_witness :
  fst (delete_handler 1 None None recorded_world)
  = Return {| status := 200;
              payload := JsonMessage (lit "Document deleted successfully") |}
  /\ fst (delete_handler 1 None None
            (snd (delete_handler 1 None None recorded_world)))
     = Return (json_error 404 (lit "Document not found")).
Proof.
  destruct (C5_deletion_outcomes recorded_world 1 None None)
    as (_ & _ & Hrow).
  assert (Hdoc : exists doc, Db.lookup 1 (documents recorded_world) = Some doc)
    by (vm_compute; eauto).
  destruct Hdoc as [doc Hdoc].
  destruct (Hrow doc eq_refl Hdoc) as (_ & _ & _ & Hok).
  destruct (Hok eq_refl) as (Hfirst & _ & Hsecond).
  split; [exact Hfirst | exact Hsecond].
Defined.

(** C5 as stated lets only a failed row deletion end in 500: a failed
    lookup does too, before any deletion is asked for. *)
Lemma C5_lookup_failure_is_a_500 :
  fst (delete_handler 1 (Some (lit "SQLITE_BUSY: database is locked")) None
         recorded_world)
  = Return (json_error 500
              (lit "Database error: SQLITE_BUSY: database is locked"))
  /\ count_event is_delete
       (snd (delete_handler 1 (Some (lit "SQLITE_BUSY: database is locked"))
               None recorded_world))
     = 0%nat
  /\ List.map id (documents recorded_world) = [1].
Proof. vm_compute. repeat split. Qed.



End RetrievalOutcomes.

(** ** The download name *)

Section DownloadNameFacts.
Context `{Runtime}.



End DownloadNameFacts.


(** ** Listing *)

Section ListingFacts.
Variable tie : row -> row -> bool.

Lemma place_perm (r : row) (rows : list row) :
  Permutation (Db.place tie r rows) (r :: rows).
Proof.
  induction rows as [|h t IH]; cbn [Db.place]; [reflexivity|].
  destruct (Db.before tie r h); [reflexivity|].
  rewrite IH. apply perm_swap.
Qed.

Lemma order_perm (rows : list row) :
  Permutation (Db.order_by_created_at_desc tie rows) rows.
Proof.
  unfold Db.order_by_created_at_desc.
  induction rows as [|r rows IH]; cbn [List.fold_right]; [reflexivity|].
  rewrite place_perm, IH. reflexivity.
Qed.

Lemma before_newer (a b : row) :
  Db.before tie a b = true -> created_at b <= created_at a.
Proof.
  unfold Db.before. rewrite orb_true_iff, andb_true_iff, N.ltb_lt, N.eqb_eq.
  lia.
Qed.

Lemma not_before_older (a b : row) :
  Db.before tie a b = false -> created_at a <= created_at b.
Proof.
  unfold Db.before. rewrite orb_false_iff, N.ltb_ge. tauto.
Qed.

Lemma place_sorted (r : row) (rows : list row) :
  newest_first rows -> newest_first (Db.place tie r rows).
Proof.
  unfold newest_first. induction rows as [|h t IH]; intros Hs; cbn [Db.place].
  - constructor; constructor.
  - apply StronglySorted_inv in Hs as [Ht Hh].
    destruct (Db.before tie r h) eqn:Hb.
    + constructor; [constructor; assumption|].
      apply before_newer in Hb. constructor; [exact Hb|].
      rewrite List.Forall_forall in *. intros x Hx.
      specialize (Hh x Hx). lia.
    + constructor; [apply IH; exact Ht|].
      apply not_before_older in Hb.
      rewrite List.Forall_forall in *. intros x Hx.
      apply (Permutation_in _ (place_perm r t)) in Hx.
      destruct Hx as [<-|Hx]; [exact Hb | apply Hh; exact Hx].
Qed.

Lemma order_sorted (rows : list row) :
  newest_first (Db.order_by_created_at_desc tie rows).
Proof.
  unfold Db.order_by_created_at_desc.
  induction rows as [|r rows IH]; cbn [List.fold_right].
  - constructor.
  - apply place_sorted, IH.
Qed.

Lemma list_handler_run (w : world) (err : option jsstring) :
  list_handler err tie w
  = (Return match err with
            | Some message => database_error message
            | None =>
                {| status := 200;
                   payload :=
                     JsonRows (Db.order_by_created_at_desc tie (documents w)) |}
            end,
     {| files := files w; documents := documents w; sequence := sequence w;
        trace := trace w ++ [SqlSelectAll] |}).
Proof.
  unfold list_handler, Db.all. destruct err; run_steps; reflexivity.
Qed.

End ListingFacts.

(** C7 (amended): the listing is the table, every row once, in descending
    order of [created_at]; this holds whatever order the engine gives to rows
    of equal [created_at], which the query leaves open.  The handler changes
    nothing. *)
Theorem C7_listing_is_newest_first (w : world) (tie : row -> row -> bool) :
  exists rows,
    fst (list_handler None tie w)
    = Return {| status := 200; payload := JsonRows rows |}
    /\ Permutation rows (documents w)
    /\ newest_first rows
    /\ documents (snd (list_handler None tie w)) = documents w
    /\ files (snd (list_handler None tie w)) = files w.
Proof.
  exists (Db.order_by_created_at_desc tie (documents w)).
  rewrite list_handler_run. cbn [fst snd documents files].
  split; [reflexivity|]. split; [apply order_perm|].
  split; [apply order_sorted|]. split; reflexivity.
Qed.

(** C7 as stated breaks ties by descending id: with an engine that returns
    rows of the same second in insertion order, the listing has id 1 before
    id 2. *)
Lemma C7_ties_can_come_in_insertion_order :
  fst (list_handler None insertion_order same_second_world)
  = Return {| status := 200;
              payload := JsonRows (documents same_second_world) |}
  /\ List.map id (documents same_second_world) = [1; 2]
  /\ List.map created_at (documents same_second_world)
     = [1700000000; 1700000000]
  /\ ties_by_id_desc (documents same_second_world) = false.
Proof. vm_compute. repeat split. Qed.

(** ** The size limit *)

Section LimitFacts.
Context `{Runtime}.

Lemma fileFilter_accepts (p : part) :
  mimetype p = lit "application/pdf" -> fileFilter p = None.
Proof. unfold fileFilter. intros ->. rewrite eqb_same. reflexivity. Qed.

(** C8 (amended): a part declared as [application/pdf] whose stream is
    longer than the limit ends in 400 with the size message; the partial blob
    is removed, no blob is opened for verification and no insert is issued. *)
Theorem C8_oversized_pdf_is_refused (w : world) (p : part) (env : upload_env) :
  mimetype p = lit "application/pdf" ->
  fileSize < N.of_nat (length (bytes p)) ->
  let res := post_upload (Some p) env w in
  let dest :=
    rf_path (stored_file
               (storage_filename (originalname p) (now env) (rnd env))
               (N.of_nat (length (bytes p)))) in
  fst res = Return (json_error 400 (lit "File size exceeds 10MB limit"))
  /\ blob_exists (snd res) dest = false
  /\ documents (snd res) = documents w
  /\ count_event is_open (snd res) = count_event is_open w
  /\ count_event is_insert (snd res) = count_event is_insert w.
Proof.
  intros Hty Hsize res dest. subst res.
  unfold post_upload, upload_single. rewrite (fileFilter_accepts p Hty).
  cbn [rf_size stored_file].
  apply N.ltb_lt in Hsize. rewrite Hsize.
  unfold write_file, error_middleware, console_error. run_steps.
  rewrite unlink_or_ignore. unfold unlinkable, blob_exists.
  cbn [files documents sequence trace fst snd].
  rewrite lookup_insert_eq. cbn [removable]. rewrite eqb_same.
  cbn [fst snd files documents trace].
  split; [reflexivity|]. split; [|split; [reflexivity|]].
  - apply bool_decide_eq_false. rewrite lookup_delete_eq.
    intros [x Hx]. discriminate Hx.
  - split.
    + erewrite count_event_app by (cbn [trace]; rewrite <- !app_assoc; reflexivity).
      cbn [List.filter is_open app length]. lia.
    + erewrite count_event_app by (cbn [trace]; rewrite <- !app_assoc; reflexivity).
      cbn [List.filter is_insert app length]. lia.
Qed.

Lemma oversized_is_over (ty : jsstring) :
  fileSize < N.of_nat (length (bytes (oversized_part ty))).
Proof.
  unfold oversized_part. cbn [bytes]. rewrite repeat_length.
  rewrite Nat2N.inj_succ, N2Nat.id. apply N.lt_succ_diag_r.
Qed.

End LimitFacts.

Lemma C8_witness :
  fst (post_upload (Some (oversized_part (lit "application/pdf"))) sample_env
         empty_world)
  = Return (json_error 400 (lit "File size exceeds 10MB limit")).
Proof.
  destruct (C8_oversized_pdf_is_refused empty_world
              (oversized_part (lit "application/pdf")) sample_env eq_refl
              (oversized_is_over _)) as [E _].
  exact E.
Defined.

(** C8 as stated covers every stream over the limit: one that is declared
    as plain text is refused by the type filter first, and the answer is 500
    with the filter's message, not 400. *)
Lemma C8_oversized_text_gets_the_filter_error :
  fst (post_upload (Some (oversized_part (lit "text/plain"))) sample_env
         empty_world)
  = Return (json_error 500
              (lit "Only PDF files are allowed (mimetype check)")).
Proof. reflexivity. Qed.

(** ** What the sanitizer guarantees *)

Section SanitizerGuarantees.
Context `{Runtime}.

Lemma sanitize_legal (s : jsstring) (c : N) :
  In c (sanitize s) -> is_illegal c = false.
Proof.
  unfold sanitize. intros Hc.
  apply truncate_In in Hc. apply strip_trailing_In in Hc.
  destruct (is_windows_reserved _); [contradiction|].
  destruct (is_reserved _); [contradiction|].
  apply remove_all_In in Hc as [Hc _].
  apply remove_all_In in Hc as [_ Hc]. exact Hc.
Qed.

Lemma safeOriginal_legal (original : jsstring) (c : N) :
  In c (safeOriginal_of original) -> is_illegal c = false.
Proof.
  unfold safeOriginal_of, strip_leading. intros Hc. apply drop_while_In in Hc.
  set (cleaned := slice0 _ _) in Hc.
  assert (Hcl : forall x, In x cleaned -> is_illegal x = false).
  { intros x Hx. subst cleaned. apply slice0_In, trim_In in Hx.
    apply collapse_from_In in Hx as [->|[Hx _]]; [reflexivity|].
    exact (sanitize_legal _ _ Hx). }
  assert (Hlit : forall x, In x (lit "file.pdf") -> is_illegal x = false).
  { simpl. intros x Hx.
    repeat (destruct Hx as [<-|Hx]; [reflexivity|]). contradiction. }
  assert (Hnamed : forall x,
            In x (if falsy cleaned then lit "file.pdf" else cleaned) ->
            is_illegal x = false).
  { intros x Hx. destruct (falsy cleaned); auto. }
  destruct (ends_with_pdf _); [auto|].
  apply in_app_or in Hc as [Hc|Hc]; [auto|].
  apply Hlit. simpl in *. tauto.
Qed.

Lemma safeOriginal_no_illegal (original : jsstring) :
  no_illegal (safeOriginal_of original) = true.
Proof.
  unfold no_illegal. apply forallb_forall. intros c Hc.
  rewrite (safeOriginal_legal _ _ Hc). reflexivity.
Qed.

Lemma hex_digits_are_legal (s : jsstring) :
  forallb Num.is_hex_digit s = true -> no_illegal s = true.
Proof.
  unfold no_illegal. rewrite !forallb_forall. intros Hs c Hc.
  specialize (Hs c Hc). unfold Num.is_hex_digit, Num.is_decimal_digit in Hs.
  unfold is_illegal.
  rewrite orb_true_iff, !andb_true_iff, !N.leb_le in Hs.
  rewrite negb_true_iff, !orb_false_iff, !N.eqb_neq. lia.
Qed.

(** X4: The name that goes to disk holds none of the characters that mean
    something to a file system (no slash, no backslash, no colon), and
    neither does the storage key built around it: the key is one path
    segment, so the blob is written directly inside the uploads directory. *)
Theorem storage_key_is_one_segment (name : option jsstring) (now rnd : N) :
  no_illegal (sanitizer name) = true
  /\ no_illegal (cb_filename (storage_filename name now rnd)) = true.
Proof.
  split; [apply safeOriginal_no_illegal|].
  cbn [cb_filename storage_filename]. unfold storedName, uniquePrefix.
  unfold no_illegal. rewrite !forallb_app.
  fold (no_illegal (Num.toString 10 now)).
  fold (no_illegal (Num.toString 16 rnd)).
  fold (no_illegal (safeOriginal_of (original_of name))).
  rewrite (hex_digits_are_legal _ (toString_decimal_as_hex now)).
  rewrite (hex_digits_are_legal _ (toString_hex rnd)).
  rewrite safeOriginal_no_illegal. reflexivity.
Qed.

(** X1: The sanitized name is at least 3 and at most 204 code units long. *)
Theorem sanitizer_length (name : option jsstring) :
  (3 <= length (sanitizer name) <= 204)%nat.
Proof.
  unfold sanitizer. split; [|apply safeOriginal_length].
  destruct (safeOriginal_shape (original_of name)) as [Hm|Hw].
  - unfold matches_safe_pattern in Hm.
    destruct (safeOriginal_of (original_of name)) as [|c r]; [discriminate|].
    apply andb_true_iff in Hm as [Hm _]. apply andb_true_iff in Hm as [_ Hm].
    apply ends_with_pdf_inv in Hm as (body & dot & p & d & f & -> & _).
    cbn [length]. rewrite length_app. cbn [length]. lia.
  - unfold is_pdf_word in Hw.
    destruct (safeOriginal_of (original_of name)) as [|p [|d [|f [|x r]]]];
      try discriminate. cbn [length]. lia.
Qed.

(** X3: The sanitized name begins with a code unit that is neither a dot nor
    whitespace; it has the promised shape, or else it is the bare word
    [pdf] in some mix of cases, left when the name was an extension alone. *)
Theorem sanitizer_shape (name : option jsstring) :
  (exists c rest,
      sanitizer name = c :: rest /\ is_dot_or_space c = false)
  /\ (matches_safe_pattern (sanitizer name) = true
      \/ is_pdf_word (sanitizer name) = true).
Proof.
  split; [|apply safeOriginal_shape].
  unfold sanitizer.
  destruct (safeOriginal_shape (original_of name)) as [Hm|Hw].
  - unfold matches_safe_pattern in Hm.
    destruct (safeOriginal_of (original_of name)) as [|c r]; [discriminate|].
    exists c, r. split; [reflexivity|].
    apply andb_true_iff in Hm as [Hm _]. apply andb_true_iff in Hm as [Hm _].
    apply negb_true_iff. exact Hm.
  - unfold is_pdf_word in Hw.
    destruct (safeOriginal_of (original_of name)) as [|p [|d [|f [|x r]]]];
      try discriminate.
    exists p, [d; f]. split; [reflexivity|].
    apply andb_true_iff in Hw as [Hw _]. apply andb_true_iff in Hw as [Hp _].
    unfold eq_ci in Hp. apply orb_true_iff in Hp as [Hp|Hp];
      apply N.eqb_eq in Hp; subst p; reflexivity.
Qed.

End SanitizerGuarantees.

(** ** The name kept for display *)

Section DisplayGuarantees.
Context `{Runtime}.

Lemma drop_while_head (p : N -> bool) (s : jsstring) (c : N) (r : jsstring) :
  drop_while p s = c :: r -> p c = false.
Proof.
  induction s as [|a s IH]; simpl; [discriminate|].
  destruct (p a) eqn:Ha; [exact IH|].
  intros E. injection E as -> _. exact Ha.
Qed.

Lemma trim_no_edge_space (s : jsstring) : no_edge_space (trim s) = true.
Proof.
  unfold no_edge_space, trim, strip_trailing, strip_leading.
  set (t := drop_while is_space s).
  set (u := drop_while is_space (rev t)).
  rewrite rev_involutive. apply andb_true_iff. split.
  - destruct (drop_while_split is_space (rev t)) as [pre [E _]]. fold u in E.
    apply (f_equal (@rev N)) in E. rewrite rev_involutive, rev_app_distr in E.
    destruct (rev u) as [|c r] eqn:Eu; [reflexivity|].
    cbn [app] in E. subst t.
    apply drop_while_head in E. rewrite E. reflexivity.
  - destruct u as [|c r] eqn:Eu; [reflexivity|].
    subst u. apply drop_while_head in Eu. rewrite Eu. reflexivity.
Qed.

(** X7: The name handed to the insert as [original_filename] has no ASCII
    control character and no whitespace at either end, whatever the client
    sent. *)
Theorem display_name_is_clean (name : option jsstring) (now rnd : N) :
  no_control (savedOriginalFilename (storage_filename name now rnd)) = true
  /\ no_edge_space (savedOriginalFilename (storage_filename name now rnd))
     = true.
Proof.
  cbn [savedOriginalFilename storage_filename]. split.
  - unfold no_control. apply forallb_forall. intros c Hc.
    rewrite (original_of_In _ _ Hc). reflexivity.
  - unfold original_of. apply trim_no_edge_space.
Qed.

End DisplayGuarantees.

(** ** Telling keys apart *)

(** X8: Two storage keys are equal exactly when the clock reading, the draw and
    the name are: uploads of one name in the same millisecond collide only
    on the same draw. *)
Theorem storage_keys_differ (now now' rnd rnd' : N) (name name' : jsstring) :
  Js.eqb (storedName now rnd name) (storedName now' rnd' name')
  = (now =? now') && (rnd =? rnd') && Js.eqb name name'.
Proof.
  unfold Js.eqb.
  destruct (N.eqb_spec now now') as [<-|Hn];
    [destruct (N.eqb_spec rnd rnd') as [<-|Hr]|]; cbn [andb].
  - apply bool_decide_ext. split; [|intros ->; reflexivity].
    intros E. apply storedName_injective in E. tauto.
  - apply bool_decide_eq_false. intros E.
    apply storedName_injective in E. tauto.
  - apply bool_decide_eq_false. intros E.
    apply storedName_injective in E. tauto.
Qed.

(** ** The verifier and the upload handler, in full *)

Section UploadGuarantees.

Lemma header_is_first_four (bytes : list N) :
  is_prefix (lit "%PDF") bytes = true <-> firstn 4 bytes = lit "%PDF".
Proof.
  change (lit "%PDF") with [37; 80; 68; 70].
  destruct bytes as [|a [|b [|c [|d r]]]]; cbn [is_prefix firstn];
    rewrite ?andb_false_r; try (split; intros E; discriminate E).
  rewrite !andb_true_iff, !N.eqb_eq. split.
  - intros (<- & <- & <- & <- & _). reflexivity.
  - intros E. injection E as <- <- <- <-. auto.
Qed.

(** X9: The verifier answers, it never throws; it answers yes exactly for a blob
    that is there, can be read, and has [%PDF] as its first four bytes; and
    it changes neither a blob nor a row. *)
Theorem isRealPDF_decides (p : jsstring) (w : world) :
  (fst (isRealPDF p w) = Return true
   <-> exists f,
         files w !! p = Some f /\ readable f = true
         /\ firstn 4 (content f) = lit "%PDF")
  /\ (fst (isRealPDF p w) = Return true \/ fst (isRealPDF p w) = Return false)
  /\ files (snd (isRealPDF p w)) = files w
  /\ documents (snd (isRealPDF p w)) = documents w.
Proof.
  rewrite isRealPDF_spec. cbn [fst snd files documents].
  split; [|split; [destruct (verifiable w p); auto | split; reflexivity]].
  unfold verifiable, has_pdf_header. split.
  - intros E. injection E as E.
    destruct (files w !! p) as [f|]; [|discriminate].
    apply andb_true_iff in E as [Hr Hh]. exists f.
    split; [reflexivity|]. split; [exact Hr | apply header_is_first_four, Hh].
  - intros (f & -> & -> & Hh). apply header_is_first_four in Hh.
    rewrite Hh. reflexivity.
Qed.

Lemma upload_handler_unverified (w : world) (f : req_file)
    (saved : option jsstring) (env : upload_env) :
  verifiable w (rf_path f) = false ->
  upload_handler (Some f) saved env w
  = (Return (json_error 400 (lit "Uploaded file is not a valid PDF")),
     {| files := if unlinkable w (rf_path f)
                 then delete (rf_path f) (files w) else files w;
        documents := documents w;
        sequence := sequence w;
        trace :=
          (trace w ++ FsOpen (rf_path f) ::
             (if openable w (rf_path f) then []
              else [ConsoleError (lit "PDF magic-byte check failed:")])) ++
          FsUnlink (rf_path f) ::
            (if unlinkable w (rf_path f) then []
             else [ConsoleError (lit "Failed to remove non-PDF file:")]) |}).
Proof.
  intros Hv. unfold upload_handler. unfold bind at 1.
  rewrite isRealPDF_spec, Hv. cbn [negb].
  unfold bind at 1. rewrite unlink_or_log. reflexivity.
Qed.

(** X10: The upload handler always answers, with 201, 400 or 500.  It answers
    201 only for a blob that passed the verifier and after one row for it has
    been added, the blob store untouched; with any other answer the table is
    as it was. *)
Theorem upload_success_is_earned (w : world) (file : option req_file)
    (saved : option jsstring) (env : upload_env) :
  exists resp w',
    upload_handler file saved env w = (Return resp, w')
    /\ (status resp = 201 \/ status resp = 400 \/ status resp = 500)
    /\ (status resp = 201 ->
        exists f r,
          file = Some f
          /\ fst (isRealPDF (rf_path f) w) = Return true
          /\ documents w' = documents w ++ [r]
          /\ filename r = rf_filename f /\ filepath r = rf_path f
          /\ filesize r = rf_size f /\ id r = Db.next_id w
          /\ files w' = files w)
    /\ (status resp <> 201 -> documents w' = documents w).
Proof.
  destruct file as [f|].
  - destruct (verifiable w (rf_path f)) eqn:Hv.
    + rewrite (upload_handler_verified w f saved env Hv).
      destruct (insert_err env) as [message|];
        [destruct (is_missing_column message);
           [destruct (retry_err env) as [message2|]|]|];
        eexists _, _; (split; [reflexivity|]);
        cbn [status json_error database_error documents files];
        (split; [auto|]).
      * split; [intros E; discriminate E | reflexivity].
      * split; [|intros E; contradiction E; reflexivity].
        intros _. eexists f, _. rewrite isRealPDF_spec, Hv.
        repeat split; reflexivity.
      * split; [intros E; discriminate E | reflexivity].
      * split; [|intros E; contradiction E; reflexivity].
        intros _. eexists f, _. rewrite isRealPDF_spec, Hv.
        repeat split; reflexivity.
    + rewrite (upload_handler_unverified w f saved env Hv).
      eexists _, _. split; [reflexivity|]. cbn [status json_error documents].
      split; [auto|]. split; [intros E; discriminate E | reflexivity].
  - eexists _, _. split; [reflexivity|]. cbn [status json_error].
    split; [auto|]. split; [intros E; discriminate E | reflexivity].
Qed.

(** X11: Whatever the upload handler answers, the rows that were in the table
    are still there, in place, and blobs at other paths than the uploaded
    one are as they were. *)
Theorem upload_leaves_the_rest_alone (w : world) (f : req_file)
    (saved : option jsstring) (env : upload_env) :
  let w' := snd (upload_handler (Some f) saved env w) in
  (exists added, documents w' = documents w ++ added /\ (length added <= 1)%nat)
  /\ (forall q, q <> rf_path f -> files w' !! q = files w !! q).
Proof.
  intros w'. subst w'.
  assert (Hother : forall q, q <> rf_path f ->
            (if unlinkable w (rf_path f)
             then delete (rf_path f) (files w) else files w) !! q
            = files w !! q).
  { intros q Hq. destruct (unlinkable w (rf_path f)); [|reflexivity].
    apply lookup_delete_ne. congruence. }
  destruct (verifiable w (rf_path f)) eqn:Hv.
  - rewrite (upload_handler_verified w f saved env Hv).
    destruct (insert_err env) as [message|];
      [destruct (is_missing_column message);
         [destruct (retry_err env) as [message2|]|]|];
      cbn [snd documents files];
      (split; [first [ exists []; rewrite app_nil_r; split; [reflexivity | cbn; lia]
                     | eexists [_]; split; [reflexivity | cbn; lia] ]
              | first [exact Hother | reflexivity] ]).
  - rewrite (upload_handler_unverified w f saved env Hv).
    cbn [snd documents files]. split; [|exact Hother].
    exists []. rewrite app_nil_r. split; [reflexivity | cbn; lia].
Qed.

End UploadGuarantees.

(** ** One request after another *)

Section Compositions.





Lemma ids_fresh_empty (f : file) : ids_fresh (world_with f).
Proof. split; constructor. Qed.






End Compositions.

(** ** Invariants of the record store *)

Section StoreInvariants.

Lemma ids_fresh_append (w : world) (r : row) (fs : gmap (list N) file)
    (log : list event) :
  ids_fresh w -> id r = Db.next_id w ->
  ids_fresh {| files := fs; documents := documents w ++ [r];
               sequence := Db.next_id w; trace := log |}.
Proof.
  unfold ids_fresh, Db.next_id. cbn [documents sequence].
  intros [Hle Hnd] Hr. split.
  - apply Forall_app. split.
    + rewrite List.Forall_forall in *. intros x Hx.
      specialize (Hle x Hx). cbn in Hle. lia.
    + constructor; [lia | constructor].
  - rewrite List.map_app. cbn [List.map].
    apply List.NoDup_app; [exact Hnd | repeat constructor; intros [] |].
    intros x Hx [<-|[]].
    apply in_map_iff in Hx as (y & Hy & Hin).
    rewrite List.Forall_forall in Hle. specialize (Hle y Hin). cbn in Hle.
    lia.
Qed.

Lemma ids_fresh_filter (w : world) (keep : row -> bool)
    (fs : gmap (list N) file) (log : list event) :
  ids_fresh w ->
  ids_fresh {| files := fs; documents := List.filter keep (documents w);
               sequence := sequence w; trace := log |}.
Proof.
  unfold ids_fresh. cbn [documents sequence]. intros [Hle Hnd]. split.
  - rewrite List.Forall_forall in *. intros x Hx.
    apply filter_In in Hx as [Hx _]. apply Hle, Hx.
  - clear Hle. induction (documents w) as [|x rows IH]; [constructor|].
    cbn [List.map] in Hnd. apply List.NoDup_cons_iff in Hnd as [Hx Hnd].
    cbn [List.filter]. destruct (keep x); [|apply IH, Hnd].
    cbn [List.map]. apply List.NoDup_cons; [|apply IH, Hnd].
    intros Hin. apply Hx.
    apply in_map_iff in Hin as (y & Hy & Hin).
    apply filter_In in Hin as [Hin _].
    apply in_map_iff. exists y. split; assumption.
Qed.

Lemma ids_fresh_same (w : world) (fs : gmap (list N) file) (log : list event) :
  ids_fresh w ->
  ids_fresh {| files := fs; documents := documents w;
               sequence := sequence w; trace := log |}.
Proof. intros Hw. exact Hw. Qed.

(** X15: Every handler keeps the ids in order: no row above the counter, no id
    twice.  A deleted id is therefore never given to a later upload. *)
Theorem handlers_keep_ids_fresh (w : world) :
  ids_fresh w ->
  (forall file saved env, ids_fresh (snd (upload_handler file saved env w)))
  /\ (forall i lookup_err delete_err,
        ids_fresh (snd (delete_handler i lookup_err delete_err w)))
  /\ (forall i err, ids_fresh (snd (download_handler i err w)))
  /\ (forall err tie, ids_fresh (snd (list_handler err tie w))).
Proof.
  intros Hw. split; [|split; [|split]].
  - intros [f|] saved env; [|exact Hw].
    destruct (verifiable w (rf_path f)) eqn:Hv.
    + rewrite (upload_handler_verified w f saved env Hv).
      destruct (insert_err env) as [message|];
        [destruct (is_missing_column message);
           [destruct (retry_err env) as [message2|]|]|];
        cbn [snd];
        first [ apply ids_fresh_same, Hw
              | apply ids_fresh_append; [exact Hw | reflexivity] ].
    + rewrite (upload_handler_unverified w f saved env Hv). cbn [snd].
      apply ids_fresh_same, Hw.
  - intros i lookup_err delete_err. rewrite delete_handler_run.
    destruct lookup_err; [exact Hw|].
    destruct (Db.lookup i (documents w)); [|exact Hw].
    cbn [snd]. destruct delete_err.
    + apply ids_fresh_same, Hw.
    + apply ids_fresh_filter, Hw.
  - intros i err. rewrite download_handler_run.
    destruct err; [exact Hw|].
    destruct (Db.lookup i (documents w)); exact Hw.
  - intros err tie. rewrite list_handler_run. exact Hw.
Qed.

Lemma handlers_keep_ids_fresh_witness :
  ids_fresh recorded_world
  /\ ids_fresh (snd (delete_handler 1 None None recorded_world)).
Proof.
  destruct (handlers_keep_ids_fresh (world_with pdf_blob)
              (ids_fresh_empty pdf_blob)) as [Hup _].
  pose proof (Hup (Some sample_file) (Some (lit "notes.pdf")) sample_env)
    as Hrec.
  split; [exact Hrec|].
  destruct (handlers_keep_ids_fresh recorded_world Hrec) as (_ & Hdel & _).
  exact (Hdel 1 None None).
Defined.

Lemma lookup_filter_other (i j : N) (rows : list row) :
  j <> i ->
  Db.lookup j (List.filter (fun r => negb (id r =? i)) rows) = Db.lookup j rows.
Proof.
  unfold Db.lookup. intros Hj.
  induction rows as [|r rows IH]; [reflexivity|].
  cbn [List.filter List.find].
  destruct (N.eqb_spec (id r) i) as [Ei|Ei]; cbn [negb].
  - destruct (N.eqb_spec (id r) j) as [Ej|_]; [congruence | exact IH].
  - cbn [List.find]. rewrite IH. reflexivity.
Qed.

(** X16: A deletion touches one row and one blob: whatever it answers, the row
    of any other id is found as before, and so is the blob at any path other
    than the one the deleted row points to. *)
Theorem delete_leaves_the_rest_alone (w : world) (i j : N)
    (lookup_err delete_err : option jsstring) :
  j <> i ->
  let w' := snd (delete_handler i lookup_err delete_err w) in
  Db.lookup j (documents w') = Db.lookup j (documents w)
  /\ (forall q,
        (forall doc, Db.lookup i (documents w) = Some doc -> q <> filepath doc) ->
        files w' !! q = files w !! q).
Proof.
  intros Hj w'. subst w'. rewrite delete_handler_run.
  destruct lookup_err; [split; reflexivity|].
  destruct (Db.lookup i (documents w)) as [doc|]; [|split; reflexivity].
  cbn [snd documents files]. split.
  - destruct delete_err; [reflexivity | apply lookup_filter_other, Hj].
  - intros q Hq. specialize (Hq doc eq_refl).
    destruct (unlinkable w (filepath doc)); [|reflexivity].
    apply lookup_delete_ne. congruence.
Qed.

Lemma delete_leaves_the_rest_alone_witness :
  Db.lookup 1 (documents (snd (delete_handler 2 None None same_second_world)))
  = Db.lookup 1 (documents same_second_world).
Proof.
  destruct (delete_leaves_the_rest_alone same_second_world 2 1 None None)
    as [E _]; [discriminate|].
  exact E.
Defined.

End StoreInvariants.

(** ** The listing when timestamps differ *)

Section ListingDetermined.
Variables tie tie' : row -> row -> bool.

Lemma place_agrees (r : row) (rows : list row) :
  ~ In (created_at r) (List.map created_at rows) ->
  Db.place tie r rows = Db.place tie' r rows.
Proof.
  induction rows as [|h t IH]; intros Hr; [reflexivity|].
  cbn [Db.place List.map In] in *.
  assert (Hh : (created_at r =? created_at h) = false)
    by (apply N.eqb_neq; intros E; apply Hr; left; symmetry; exact E).
  unfold Db.before. rewrite Hh. cbn [andb]. rewrite !orb_false_r.
  destruct (created_at h <? created_at r); [reflexivity|].
  rewrite IH; [reflexivity|]. intros Hin. apply Hr. right. exact Hin.
Qed.

Lemma order_agrees (rows : list row) :
  List.NoDup (List.map created_at rows) ->
  Db.order_by_created_at_desc tie rows = Db.order_by_created_at_desc tie' rows.
Proof.
  unfold Db.order_by_created_at_desc.
  induction rows as [|r rows IH]; intros Hnd; [reflexivity|].
  cbn [List.map] in Hnd. apply List.NoDup_cons_iff in Hnd as [Hr Hnd].
  cbn [List.fold_right]. rewrite <- (IH Hnd). apply place_agrees.
  intros Hin. apply Hr.
  apply in_map_iff in Hin as (x & Hx & Hin). apply in_map_iff. exists x.
  split; [exact Hx|].
  apply (Permutation_in _ (order_perm tie rows)). exact Hin.
Qed.

(** X17: When no two rows have the same [created_at], the listing does not
    depend on how the engine orders equal timestamps: the query fixes it. *)
Theorem listing_is_determined_without_ties (w : world) :
  List.NoDup (List.map created_at (documents w)) ->
  list_handler None tie w = list_handler None tie' w.
Proof.
  intros Hnd. rewrite !list_handler_run, (order_agrees _ Hnd). reflexivity.
Qed.

End ListingDetermined.

Lemma listing_is_determined_witness :
  list_handler None insertion_order three_rows_world
  = list_handler None (fun a b => id b <? id a) three_rows_world
  /\ List.map created_at (documents three_rows_world)
     = [1700000100; 1700000300; 1700000200].
Proof.
  split; [|reflexivity].
  apply (listing_is_determined_without_ties insertion_order
           (fun a b => id b <? id a) three_rows_world).
  change (List.map created_at (documents three_rows_world))
    with [1700000100; 1700000300; 1700000200].
  repeat (constructor;
          [cbn [In]; intros Hc;
           repeat (destruct Hc as [Hc|Hc]; [discriminate Hc|]); exact Hc|]).
  constructor.
Defined.

(** ** A part of the wrong type *)

Section WrongType.
Context `{Runtime}.

(** X18: a part that multer presents with a type other than
    [application/pdf] is refused by the filter before anything is stored;
    the request ends in the error middleware, which answers 500 with the
    filter's message.  Nothing is written, opened or inserted: the only
    trace is the log line of the middleware. *)
Theorem wrong_type_is_a_500 (p : part) (env : upload_env) (w : world) :
  mimetype p <> lit "application/pdf" ->
  let res := post_upload (Some p) env w in
  fileFilter p
  = Some (PlainError (lit "Only PDF files are allowed (mimetype check)"))
  /\ fst res
     = Return (json_error 500
                 (lit "Only PDF files are allowed (mimetype check)"))
  /\ files (snd res) = files w
  /\ documents (snd res) = documents w
  /\ trace (snd res) = trace w ++ [ConsoleError (lit "err.stack")].
Proof.
  intros Hty res. subst res.
  assert (Hf : fileFilter p
               = Some (PlainError
                         (lit "Only PDF files are allowed (mimetype check)"))).
  { unfold fileFilter, Js.eqb. rewrite bool_decide_eq_false_2 by exact Hty.
    reflexivity. }
  split; [exact Hf|].
  unfold post_upload, upload_single. rewrite Hf.
  repeat split.
Qed.

End WrongType.

Lemma wrong_type_is_a_500_witness :
  fst (post_upload (Some plain_text_part) sample_env empty_world)
  = Return (json_error 500
              (lit "Only PDF files are allowed (mimetype check)"))
  /\ trace (snd (post_upload (Some plain_text_part) sample_env empty_world))
     = [ConsoleError (lit "err.stack")].
Proof.
  destruct (wrong_type_is_a_500 plain_text_part sample_env empty_world)
    as (_ & Hres & _ & _ & Htrace); [discriminate|].
  split; [exact Hres | exact Htrace].
Defined.

(** ** Whitespace in the sanitized name *)

Section WhitespaceFacts.
Context `{Runtime}.

Lemma spaced_cons (a b : N) (t : jsstring) :
  no_double_space (a :: b :: t)
  = negb (is_space a && is_space b) && no_double_space (b :: t).
Proof. reflexivity. Qed.

Lemma collapse_from_spaced (b : bool) (s : jsstring) :
  no_double_space (collapse_from b s) = true
  /\ (b = true -> head_not_space (collapse_from b s) = true).
Proof.
  revert b. induction s as [|c r IH]; intros b; [split; reflexivity|].
  cbn [collapse_from]. destruct (is_space c) eqn:Hc.
  - destruct b.
    + apply IH.
    + destruct (IH true) as [Hn Hh]. specialize (Hh eq_refl).
      split; [|discriminate].
      cbn [no_double_space]. destruct (collapse_from true r) as [|x t]; [reflexivity|].
      cbn [head_not_space] in Hh. apply negb_true_iff in Hh.
      rewrite Hh, andb_false_r. exact Hn.
  - destruct (IH false) as [Hn _]. split.
    + cbn [no_double_space]. destruct (collapse_from false r) as [|x t]; [reflexivity|].
      rewrite Hc. exact Hn.
    + intros _. cbn [head_not_space]. rewrite Hc. reflexivity.
Qed.

Lemma spaced_tail (a : N) (s : jsstring) :
  no_double_space (a :: s) = true -> no_double_space s = true.
Proof.
  cbn [no_double_space]. destruct s as [|b t]; [reflexivity|].
  intros E. apply andb_true_iff in E as [_ E]. exact E.
Qed.

Lemma spaced_drop_while (p : N -> bool) (s : jsstring) :
  no_double_space s = true -> no_double_space (drop_while p s) = true.
Proof.
  induction s as [|a s IH]; intros Hs; [reflexivity|].
  cbn [drop_while]. destruct (p a); [|exact Hs].
  apply IH, (spaced_tail a), Hs.
Qed.

(** Appending one code unit, given that it does not follow whitespace with
    whitespace. *)
Lemma spaced_snoc (s : jsstring) (a : N) :
  no_double_space s = true ->
  match rev s with
  | c :: _ => negb (is_space c && is_space a)
  | [] => true
  end = true ->
  no_double_space (s ++ [a]) = true.
Proof.
  induction s as [|x s IH]; intros Hs Hj; [reflexivity|].
  cbn [app]. destruct s as [|y t].
  - cbn [rev app] in Hj. cbn [app no_double_space]. rewrite Hj. reflexivity.
  - cbn [no_double_space] in Hs. apply andb_true_iff in Hs as [Hxy Hs].
    change ((y :: t) ++ [a]) with (y :: (t ++ [a])).
    cbn [no_double_space]. rewrite Hxy. cbn [andb].
    change (y :: (t ++ [a])) with ((y :: t) ++ [a]). apply IH; [exact Hs|].
    change (rev (x :: y :: t)) with (rev (y :: t) ++ [x]) in Hj.
    destruct (rev (y :: t)) as [|c u] eqn:E; [|exact Hj].
    apply (f_equal (@length N)) in E. rewrite length_rev in E. discriminate E.
Qed.

Lemma spaced_rev (s : jsstring) :
  no_double_space s = true -> no_double_space (rev s) = true.
Proof.
  induction s as [|a s IH]; intros Hs; [reflexivity|].
  cbn [rev]. apply spaced_snoc; [apply IH, (spaced_tail a), Hs|].
  rewrite rev_involutive. destruct s as [|b t]; [reflexivity|].
  cbn [no_double_space] in Hs. apply andb_true_iff in Hs as [Hab _].
  rewrite andb_comm. exact Hab.
Qed.

Lemma spaced_firstn (n : nat) (s : jsstring) :
  no_double_space s = true -> no_double_space (firstn n s) = true.
Proof.
  revert s. induction n as [|n IH]; intros [|a s] Hs; try reflexivity.
  cbn [firstn]. specialize (IH s (spaced_tail a s Hs)).
  destruct n as [|n]; [destruct s; reflexivity|].
  destruct s as [|b t]; [reflexivity|].
  cbn [firstn] in *. cbn [no_double_space] in Hs |- *.
  apply andb_true_iff in Hs as [Hab _]. rewrite Hab. exact IH.
Qed.

Lemma spaced_app (s t : jsstring) :
  no_double_space s = true -> no_double_space t = true ->
  head_not_space t = true -> no_double_space (s ++ t) = true.
Proof.
  intros Hs Ht Hh. induction s as [|a s IH]; [exact Ht|].
  cbn [app]. specialize (IH (spaced_tail a s Hs)).
  destruct s as [|b u].
  - cbn [app]. destruct t as [|c v]; [reflexivity|].
    rewrite spaced_cons. cbn [head_not_space] in Hh.
    apply negb_true_iff in Hh. rewrite Hh, andb_false_r. exact Ht.
  - cbn [app] in *. rewrite spaced_cons in *.
    apply andb_true_iff in Hs as [Hab _]. rewrite Hab. exact IH.
Qed.

Lemma safeOriginal_spaced (original : jsstring) :
  no_double_space (safeOriginal_of original) = true.
Proof.
  unfold safeOriginal_of, strip_leading. apply spaced_drop_while.
  set (cleaned := slice0 _ _).
  assert (Hc : no_double_space cleaned = true).
  { subst cleaned. unfold slice0, trim, strip_trailing, strip_leading.
    apply spaced_firstn, spaced_rev, spaced_drop_while, spaced_rev,
      spaced_drop_while.
    apply (collapse_from_spaced false). }
  destruct (falsy cleaned); [reflexivity|].
  destruct (ends_with_pdf cleaned); [exact Hc|].
  apply spaced_app; [exact Hc | reflexivity | reflexivity].
Qed.

Lemma safeOriginal_plain_spaces (original : jsstring) :
  plain_spaces (safeOriginal_of original) = true.
Proof.
  unfold plain_spaces. apply forallb_forall. intros c Hc.
  apply safeOriginal_In in Hc as [Hc|[->|[_ Hc]]].
  - simpl in Hc. repeat (destruct Hc as [<-|Hc]; [reflexivity|]). contradiction.
  - reflexivity.
  - rewrite Hc. reflexivity.
Qed.

(** X5: Whitespace in the sanitized name is collapsed: every whitespace code
    unit in it is a plain space, and no two of them are neighbours. *)
Theorem sanitizer_collapses_whitespace (name : option jsstring) :
  plain_spaces (sanitizer name) = true
  /\ no_double_space (sanitizer name) = true.
Proof.
  unfold sanitizer. split;
    [apply safeOriginal_plain_spaces | apply safeOriginal_spaced].
Qed.

End WhitespaceFacts.

(** ** Names the sanitizer has nothing to do on *)

Section PassThrough.
Context `{Runtime}.

Lemma word_char_facts (c : N) :
  is_word_char c = true ->
  (c <? 128) = true /\ is_control c = false /\ is_illegal c = false
  /\ is_control_c0_c1 c = false /\ is_space c = false /\ is_dot c = false.
Proof.
  unfold is_word_char, is_control, is_illegal, is_control_c0_c1, is_space,
    is_dot.
  rewrite !orb_true_iff, !andb_true_iff, !N.leb_le, !N.eqb_eq. intros Hc.
  rewrite N.ltb_lt, !orb_false_iff, !andb_false_iff, !N.leb_gt, !N.eqb_neq.
  lia.
Qed.

Lemma extension_facts (c : N) :
  In c (lit ".pdf") ->
  (c <? 128) = true /\ is_control c = false /\ is_illegal c = false
  /\ is_control_c0_c1 c = false /\ is_space c = false.
Proof.
  simpl. intros Hc.
  repeat (destruct Hc as [<-|Hc]; [repeat split; reflexivity|]). contradiction.
Qed.

Lemma remove_all_nothing (p : N -> bool) (s : jsstring) :
  (forall c, In c s -> p c = false) -> remove_all p s = s.
Proof.
  unfold remove_all. induction s as [|a s IH]; intros Hs; [reflexivity|].
  cbn [List.filter]. rewrite (Hs a) by (left; reflexivity). cbn [negb].
  rewrite IH; [reflexivity|]. intros c Hc. apply Hs. right. exact Hc.
Qed.

Lemma collapse_nothing (b : bool) (s : jsstring) :
  (forall c, In c s -> is_space c = false) -> collapse_from b s = s.
Proof.
  revert b. induction s as [|a s IH]; intros b Hs; [reflexivity|].
  cbn [collapse_from]. rewrite (Hs a) by (left; reflexivity).
  rewrite IH; [reflexivity|]. intros c Hc. apply Hs. right. exact Hc.
Qed.

Lemma truncate_fits (s : jsstring) :
  forall budget,
    forallb (fun c => c <? 128) s = true ->
    N.of_nat (length s) <= budget -> truncate budget s = s.
Proof.
  induction s as [|h t IH]; intros budget Ha Hl; [reflexivity|].
  cbn [forallb] in Ha. apply andb_true_iff in Ha as [Hh Ha].
  apply N.ltb_lt in Hh.
  assert (Hu : utf8_length h = 1).
  { unfold utf8_length. destruct (N.ltb_spec h 128); [reflexivity | lia]. }
  assert (Hs : is_high_surrogate h = false).
  { unfold is_high_surrogate. apply andb_false_iff. left. apply N.leb_gt. lia. }
  cbn [length] in Hl. rewrite Nat2N.inj_succ in Hl.
  cbn [truncate]. rewrite Hs, Hu. cbn [andb].
  destruct (N.leb_spec 1 budget) as [_|Hb]; [|lia].
  destruct t as [|l r]; [reflexivity|].
  rewrite (IH (budget - 1) Ha) by lia. reflexivity.
Qed.

Lemma strip_trailing_nothing (p : N -> bool) (s : jsstring) (last : N) :
  p last = false -> strip_trailing p (s ++ [last]) = s ++ [last].
Proof.
  intros Hp. unfold strip_trailing. rewrite rev_app_distr. cbn [rev app drop_while].
  rewrite Hp. change (last :: rev s) with ([last] ++ rev s).
  rewrite rev_app_distr, rev_involutive. reflexivity.
Qed.

Lemma strip_leading_nothing (p : N -> bool) (first : N) (s : jsstring) :
  p first = false -> strip_leading p (first :: s) = first :: s.
Proof. intros Hp. unfold strip_leading. cbn [drop_while]. rewrite Hp. reflexivity. Qed.

Lemma with_extension_is_not_reserved (stem : jsstring) :
  falsy stem = false -> forallb is_word_char stem = true ->
  is_device stem = false ->
  is_windows_reserved (stem ++ lit ".pdf") = false.
Proof.
  intros Hn Hw Hd. change (lit ".pdf") with [46; 112; 100; 102].
  assert (Hdot : forall x, In x stem -> is_dot x = false).
  { intros x Hx. rewrite forallb_forall in Hw.
    apply (word_char_facts x (Hw x Hx)). }
  unfold is_windows_reserved.
  destruct stem as [|a [|b [|c [|d [|e r]]]]]; [discriminate Hn|..];
    cbn [app firstn skipn existsb].
  - cbn. rewrite ?andb_false_r. reflexivity.
  - cbn. rewrite ?andb_false_r. reflexivity.
  - rewrite Hd. cbn. rewrite ?andb_false_r. reflexivity.
  - rewrite Hd, (Hdot d) by (simpl; tauto).
    cbn. rewrite ?andb_false_r. reflexivity.
  - rewrite (Hdot d), (Hdot e) by (simpl; tauto).
    cbn. rewrite ?andb_false_r. reflexivity.
Qed.

(** X6: A name made of letters, digits, hyphens and underscores, not a device
    name, with the extension [.pdf] and at most 200 code units in all, goes
    through the sanitizer unchanged. *)
Theorem well_formed_name_is_kept (stem : jsstring) :
  falsy stem = false ->
  forallb is_word_char stem = true ->
  (length stem <= 196)%nat ->
  is_device stem = false ->
  sanitizer (Some (stem ++ lit ".pdf")) = stem ++ lit ".pdf".
Proof.
  intros Hn Hw Hlen Hd.
  set (s := stem ++ lit ".pdf").
  assert (Hfacts : forall c, In c s ->
            (c <? 128) = true /\ is_control c = false /\ is_illegal c = false
            /\ is_control_c0_c1 c = false /\ is_space c = false).
  { intros c Hc. apply in_app_or in Hc as [Hc|Hc].
    - rewrite forallb_forall in Hw.
      destruct (word_char_facts c (Hw c Hc)) as (? & ? & ? & ? & ? & _). auto.
    - apply extension_facts, Hc. }
  destruct stem as [|first rest]; [discriminate Hn|].
  assert (Hfirst : is_word_char first = true).
  { cbn [forallb] in Hw. apply andb_true_iff in Hw as [Hf _]. exact Hf. }
  destruct (word_char_facts first Hfirst) as (_ & _ & _ & _ & Hfs & Hfd).
  assert (Hs : s = (first :: rest ++ lit ".pd") ++ [102]).
  { subst s. cbn [app]. rewrite <- app_assoc. reflexivity. }
  assert (Hs' : s = first :: (rest ++ lit ".pdf")) by reflexivity.
  assert (Hsl : (length s <= 200)%nat).
  { subst s. rewrite length_app. cbn [length] in *. simpl. lia. }
  assert (Htrim : trim s = s).
  { unfold trim. rewrite Hs' at 1. rewrite strip_leading_nothing by exact Hfs.
    rewrite <- Hs', Hs at 1. rewrite strip_trailing_nothing by reflexivity.
    rewrite <- Hs. reflexivity. }
  assert (Hsan : sanitize s = s).
  { unfold sanitize.
    rewrite (remove_all_nothing is_illegal s)
      by (intros c Hc; apply Hfacts, Hc).
    rewrite (remove_all_nothing is_control_c0_c1 s)
      by (intros c Hc; apply Hfacts, Hc).
    assert (Hres : is_reserved s = false).
    { unfold is_reserved. rewrite Hs'. cbn [falsy forallb negb].
      rewrite Hfd. reflexivity. }
    assert (Hwr : is_windows_reserved s = false)
      by (apply with_extension_is_not_reserved; assumption).
    rewrite Hres, Hwr. rewrite Hs at 1.
    rewrite strip_trailing_nothing by reflexivity. rewrite <- Hs.
    apply truncate_fits.
    - apply forallb_forall. intros c Hc. apply Hfacts, Hc.
    - lia. }
  unfold sanitizer. rewrite original_of_ascii.
  - fold s. rewrite remove_all_nothing by (intros c Hc; apply Hfacts, Hc).
    rewrite Htrim. unfold safeOriginal_of. rewrite Hsan.
    unfold collapse_spaces.
    rewrite collapse_nothing by (intros c Hc; apply Hfacts, Hc).
    rewrite Htrim. unfold slice0. rewrite firstn_all2 by exact Hsl.
    replace (falsy s) with false by (rewrite Hs'; reflexivity).
    assert (He : ends_with_pdf s = true).
    { subst s. change (lit ".pdf") with [46; 112; 100; 102].
      rewrite ends_with_pdf_app. reflexivity. }
    rewrite He. rewrite Hs'. apply strip_leading_nothing.
    unfold is_dot_or_space. rewrite Hfs, Hfd. reflexivity.
  - fold s. apply forallb_forall. intros c Hc. apply Hfacts, Hc.
  - reflexivity.
Qed.

End PassThrough.

Lemma well_formed_name_is_kept_witness :
  sanitizer (Some (lit "lab-results_2024" ++ lit ".pdf"))
  = lit "lab-results_2024" ++ lit ".pdf".
Proof.
  apply (well_formed_name_is_kept (lit "lab-results_2024"));
    [reflexivity | reflexivity | simpl; lia | reflexivity].
Defined.

